(** * Twister web middleware: response filters and the form/XSRF handler

    A shallow embedding of [web/middleware.go]: the [filterResponder]
    decorator, [FilterRespond], and [formHandler.ServeWeb] with its
    double-submit-cookie XSRF check. *)

From Stdlib Require Import ZArith NArith List String Ascii Bool Lia.
From Stdlib Require Import Strings.Byte.
From stdpp Require Import gmap strings list.

Open Scope Z_scope.
Open Scope string_scope.

(** ** Header and parameter maps *)

(** Modelled from the spec: [HeaderMap] (declared in another file of the
    package) is a multimap from header name to one or more values with
    get-first, add and set-replace; the Go type is a map from string to a
    slice of strings. *)
Module HeaderMap.

Abbreviation t := (gmap string (list string)).

Definition Get (m : t) (key : string) : string :=
  match m !! key with
  | Some (value :: _) => value
  | _ => ""
  end.

Definition Add (m : t) (key value : string) : t :=
  <[key := (default [] (m !! key) ++ [value])%list]> m.

Definition Set_ (m : t) (key value : string) : t :=
  <[key := [value]]> m.

(** All the values stored under a header name. *)
Definition Values (m : t) (key : string) : list string :=
  default [] (m !! key).

End HeaderMap.

(** Modelled from the spec: [ParamMap] (declared in another file of the
    package) is the multi-valued form/query parameter map with get (first
    value, empty string when absent) and set (replace by a single value);
    the request's cookies are looked up the same way. *)
Module ParamMap.

Abbreviation t := (gmap string (list string)).

Definition Get (m : t) (key : string) : string :=
  match m !! key with
  | Some (value :: _) => value
  | _ => ""
  end.

Definition Set_ (m : t) (key value : string) : t :=
  <[key := [value]]> m.

End ParamMap.

(** ** Constants declared elsewhere in the package *)

(** Modelled from the spec: the status codes named by the handler are the
    standard HTTP ones (not-found, bad-request, request-entity-too-large,
    expectation-failed); their declarations are in another file. *)
Definition StatusBadRequest : Z := 400.
Definition StatusNotFound : Z := 404.
Definition StatusRequestEntityTooLarge : Z := 413.
Definition StatusExpectationFailed : Z := 417.

(** Modelled from the spec: canonical header names used by the handler;
    their declarations are in another file. *)
Definition HeaderExpect : string := "Expect".
Definition HeaderSetCookie : string := "Set-Cookie".
Definition HeaderXXSRFToken : string := "X-Xsrftoken".

(** Name of XSRF cookie and request parameter. *)
Definition XSRFCookieName : string := "xsrf".
Definition XSRFParamName : string := "xsrf".

(** Go errors: the package-level sentinel [ErrRequestEntityTooLarge], which
    the handler compares by identity, and errors made by [os.NewError]. *)
Inductive error : Type :=
| ErrRequestEntityTooLarge
| NewError (msg : string).

Definition isErrRequestEntityTooLarge (err : error) : bool :=
  match err with
  | ErrRequestEntityTooLarge => true
  | NewError _ => false
  end.

(** Modelled from the spec: [NewCookie(name, value).String()] (declared in
    another file) serialises the cookie to the [Set-Cookie] line
    [name=value]. *)
Record Cookie := NewCookie { cookieName : string; cookieValue : string }.

Definition Cookie_String (c : Cookie) : string :=
  cookieName c ++ "=" ++ cookieValue c.

(** ** Responders and the filter chain *)

Definition Filter : Type := Z -> HeaderMap.t -> Z * HeaderMap.t.

Section Responders.

Variable ResponseBody : Type.

(** A responder is either the one the server installed (the connection's
    own [Respond]) or a [filterResponder] wrapping a previous one. *)
Inductive Responder : Type :=
| netResponder (respond : Z -> HeaderMap.t -> ResponseBody)
| filterResponder (inner : Responder) (filter : Filter).

Fixpoint Respond (rf : Responder) (status : Z) (header : HeaderMap.t)
  : ResponseBody :=
  match rf with
  | netResponder respond => respond status header
  | filterResponder inner filter =>
      let '(status', header') := filter status header in
      Respond inner status' header'
  end.

(** The number of filters wrapped around the server's responder. *)
Fixpoint depth (rf : Responder) : nat :=
  match rf with
  | netResponder _ => 0%nat
  | filterResponder inner _ => S (depth inner)
  end.

(** The fields of [Request] that the middleware reads or writes. *)
Record Request : Type := mkRequest {
  RemoteAddr : string;
  URLScheme : string;
  Method : string;
  Header : HeaderMap.t;
  Cookie_ : ParamMap.t;
  Param : ParamMap.t;
  ReqResponder : Responder
}.

Definition withResponder (req : Request) (r : Responder) : Request :=
  {| RemoteAddr := RemoteAddr req; URLScheme := URLScheme req;
     Method := Method req; Header := Header req; Cookie_ := Cookie_ req;
     Param := Param req; ReqResponder := r |}.

Definition withParam (req : Request) (p : ParamMap.t) : Request :=
  {| RemoteAddr := RemoteAddr req; URLScheme := URLScheme req;
     Method := Method req; Header := Header req; Cookie_ := Cookie_ req;
     Param := p; ReqResponder := ReqResponder req |}.

(** [FilterRespond] replaces the request's responder with one that
    filters the arguments to [Respond] through the supplied filter. *)
Definition FilterRespond (req : Request) (filter : Filter) : Request :=
  withResponder req (filterResponder (ReqResponder req) filter).

End Responders.

Arguments netResponder {ResponseBody} respond.
Arguments filterResponder {ResponseBody} inner filter.
Arguments Respond {ResponseBody} rf status header.
Arguments depth {ResponseBody} rf.
Arguments mkRequest {ResponseBody}.
Arguments RemoteAddr {ResponseBody} _.
Arguments URLScheme {ResponseBody} _.
Arguments Method {ResponseBody} _.
Arguments Header {ResponseBody} _.
Arguments Cookie_ {ResponseBody} _.
Arguments Param {ResponseBody} _.
Arguments ReqResponder {ResponseBody} _.
Arguments withResponder {ResponseBody} req r.
Arguments withParam {ResponseBody} req p.
Arguments FilterRespond {ResponseBody} req filter.

(** ** The secure random source

    [rand.Reader] is process-wide state.  It is modelled as a deterministic
    stream: [source k] is what the [k]-th call of [Read] yields (the bytes
    the source has available and the error it reports), and [reads] counts
    the calls made so far. *)
Record Reader : Type := mkReader {
  reads : nat;
  source : nat -> list byte * option error
}.

(** [make([]byte, n)]: a zeroed buffer. *)
Definition make (n : nat) : list byte := replicate n x00.

(** Go's [copy(dst, src)]: overwrites the first [min(len dst, len src)]
    bytes of [dst]; the length of [dst] never changes. *)
Definition copy (dst src : list byte) : list byte :=
  (firstn (length dst) src ++ skipn (length src) dst)%list.

(** The source after one more call of [Read]. *)
Definition advance (r : Reader) : Reader :=
  {| reads := S (reads r); source := source r |}.

(** [Read(p)] fills a prefix of [p] and returns the buffer, the number of
    bytes read and the error.  It may read fewer bytes than [p] holds
    without reporting an error. *)
Definition Read (r : Reader) (p : list byte)
  : list byte * nat * option error * Reader :=
  let '(data, err) := source r (reads r) in
  (copy p data, Nat.min (length data) (length p), err, advance r).

(** ** [hex.EncodeToString] *)

Definition hextable : string := "0123456789abcdef".

Definition hexdigit (i : N) : ascii :=
  match String.get (N.to_nat i) hextable with
  | Some c => c
  | None => "0"%char
  end.

Fixpoint EncodeToString (src : list byte) : string :=
  match src with
  | [] => ""
  | v :: src' =>
      String (hexdigit (N.shiftr (Byte.to_N v) 4))
        (String (hexdigit (N.land (Byte.to_N v) 15)) (EncodeToString src'))
  end.

(** A character is a hexadecimal digit: [0-9], [a-f] or [A-F]. *)
Definition isHexDigit (c : ascii) : bool :=
  let n := N_of_ascii c in
  ((48 <=? n) && (n <=? 57) || (97 <=? n) && (n <=? 102)
   || (65 <=? n) && (n <=? 70))%N.

Fixpoint allHex (s : string) : bool :=
  match s with
  | EmptyString => true
  | String c s' => isHexDigit c && allHex s'
  end.

(** ** Handlers *)

(** A value or a Go panic. *)
Inductive result (A : Type) : Type :=
| Ok (a : A)
| Panic (msg : string).

Arguments Ok {A} a.
Arguments Panic {A} msg.

Section Handlers.

Variable ResponseBody : Type.

Local Abbreviation Request := (Request ResponseBody).

(** How a handler's call ends: the application handler at the end of the
    chain was served the request, [req.Error(status, err)] was called, or
    the handler panicked. *)
Inductive Outcome : Type :=
| Served (req : Request)
| Errored (req : Request) (status : Z) (err : error)
| Panicked (msg : string).

(** [Handler.ServeWeb(req)], threading the random source. *)
Definition Handler : Type := Request -> Reader -> Outcome * Reader.

(** Whether [ServeWeb] has returned early or goes on to its last
    statement. *)
Inductive Flow : Type :=
| Return (o : Outcome)
| Next (req : Request).

Record formHandler : Type := mkFormHandler {
  maxRequestBodyLen : Z;
  checkXSRF : bool;
  h : Handler
}.

(** [FormHandler] returns a handler that parses form encoded request
    bodies and, if [checkXSRF] is true, protects against cross-site
    request forgery. *)
Definition FormHandler (maxRequestBodyLen : Z) (checkXSRF : bool)
  (h : Handler) : formHandler :=
  {| maxRequestBodyLen := maxRequestBodyLen; checkXSRF := checkXSRF;
     h := h |}.

(** [req.ParseForm(maxRequestBodyLen)] is declared in another file of the
    package: it may update the request and returns an error or nil.  The
    handler is verified for every behaviour of it. *)
Variable ParseForm : Z -> Request -> Request * option error.

Definition tokenLen : nat := 8.

(** The filter installed when a token is minted: it adds the cookie line
    [c] to the response header. *)
Definition setCookieFilter (c : string) : Filter :=
  fun status header => (status, HeaderMap.Add header HeaderSetCookie c).

(** The first part of the XSRF block of [formHandler.ServeWeb]: read the
    cookie and create a new XSRF token when its length is not
    [tokenLen]. *)
Definition xsrfExpectedToken (req : Request) (rnd : Reader)
  : result (string * Request) * Reader :=
  let expectedToken := ParamMap.Get (Cookie_ req) XSRFCookieName in
  if negb (Nat.eqb (String.length expectedToken) tokenLen) then
    let p := make (tokenLen / 2) in
    let '(p, _, err, rnd) := Read rnd p in
    match err with
    | Some _ => (Panic "twister: rand read failed", rnd)
    | None =>
        let expectedToken := EncodeToString p in
        let c := Cookie_String (NewCookie XSRFCookieName expectedToken) in
        (Ok (expectedToken, FilterRespond req (setCookieFilter c)), rnd)
    end
  else (Ok (expectedToken, req), rnd).

Definition ServeWeb (fh : formHandler) : Handler := fun req rnd =>
  let '(req, err) := ParseForm (maxRequestBodyLen fh) req in
  match err with
  | Some err =>
      let status := StatusBadRequest in
      let status :=
        if isErrRequestEntityTooLarge err then
          let status := StatusRequestEntityTooLarge in
          if negb (String.eqb (HeaderMap.Get (Header req) HeaderExpect) "")
          then StatusExpectationFailed
          else status
        else status in
      (Errored req status
         (NewError "twister: Error reading or parsing form."), rnd)
  | None =>
      let '(flow, rnd) :=
        if checkXSRF fh then
          match xsrfExpectedToken req rnd with
          | (Panic msg, rnd) => (Return (Panicked msg), rnd)
          | (Ok (expectedToken, req), rnd) =>
              let actualToken := ParamMap.Get (Param req) XSRFParamName in
              let '(actualToken, req) :=
                if String.eqb actualToken "" then
                  (HeaderMap.Get (Header req) HeaderXXSRFToken,
                   withParam req
                     (ParamMap.Set_ (Param req) XSRFParamName expectedToken))
                else (actualToken, req) in
              if negb (String.eqb expectedToken actualToken) then
                let req :=
                  withParam req
                    (ParamMap.Set_ (Param req) XSRFParamName expectedToken) in
                if String.eqb (Method req) "POST"
                   || String.eqb (Method req) "PUT"
                   || String.eqb (Method req) "DELETE" then
                  let err := NewError "twister: bad xsrf token" in
                  let err :=
                    if String.eqb actualToken ""
                    then NewError "twister: missing xsrf token"
                    else err in
                  (Return (Errored req StatusNotFound err), rnd)
                else (Next req, rnd)
              else (Next req, rnd)
          end
        else (Next req, rnd) in
      match flow with
      | Return o => (o, rnd)
      | Next req => h fh req rnd
      end
  end.

End Handlers.

Arguments Served {ResponseBody} req.
Arguments Errored {ResponseBody} req status err.
Arguments Panicked {ResponseBody} msg.
Arguments Return {ResponseBody} o.
Arguments Next {ResponseBody} req.
Arguments mkFormHandler {ResponseBody}.
Arguments maxRequestBodyLen {ResponseBody} _.
Arguments checkXSRF {ResponseBody} _.
Arguments h {ResponseBody} _.
Arguments FormHandler {ResponseBody} maxRequestBodyLen checkXSRF h.
Arguments xsrfExpectedToken {ResponseBody} req rnd.
Arguments ServeWeb {ResponseBody} ParseForm fh req rnd.

(** ** Vocabulary of the XSRF claims and stand-ins for the collaborators *)

(** The token the client submitted: the [xsrf] parameter, or the
    [X-XSRFToken] header when the parameter is empty. *)
Definition submittedToken {ResponseBody : Type} (req : Request ResponseBody)
  : string :=
  let param := ParamMap.Get (Param req) XSRFParamName in
  if String.eqb param "" then HeaderMap.Get (Header req) HeaderXXSRFToken
  else param.

(** The methods for which a token mismatch is fatal. *)
Definition mutating (method : string) : Prop :=
  method = "POST" \/ method = "PUT" \/ method = "DELETE".

(** The request after the fallback of the submitted token to the header:
    the handler stores the expected token in the parameter when the
    parameter was empty. *)
Definition afterFallback {ResponseBody : Type} (expectedToken : string)
  (req : Request ResponseBody) : Request ResponseBody :=
  if String.eqb (ParamMap.Get (Param req) XSRFParamName) "" then
    withParam req (ParamMap.Set_ (Param req) XSRFParamName expectedToken)
  else req.

(** Installing a list of filters, first to last. *)
Definition installAll {ResponseBody : Type} (req : Request ResponseBody)
  (filters : list Filter) : Request ResponseBody :=
  fold_left FilterRespond filters req.

(** Running a list of filters on a status and header, last to first. *)
Definition runFilters (filters : list Filter) (status : Z)
  (header : HeaderMap.t) : Z * HeaderMap.t :=
  fold_right (fun (f : Filter) sh => f (fst sh) (snd sh)) (status, header)
    filters.

(** The application handler at the end of the chain: it records the
    request it is served. *)
Definition Serve {ResponseBody : Type} : Handler ResponseBody :=
  fun req rnd => (Served req, rnd).

(** A stand-in for [ParseForm] on a request whose body has [bodyLen] bytes
    of well-formed content: a body larger than the limit is refused, as the
    documentation of [FormHandler] says, and the request is not changed. *)
Definition ParseFormSized {ResponseBody : Type} (bodyLen : Z)
  : Z -> Request ResponseBody -> Request ResponseBody * option error :=
  fun maxRequestBodyLen req =>
    if Z.ltb maxRequestBodyLen bodyLen then (req, Some ErrRequestEntityTooLarge)
    else (req, None).

(** A stand-in for [ParseForm] on a request whose body is malformed. *)
Definition ParseFormMalformed {ResponseBody : Type}
  : Z -> Request ResponseBody -> Request ResponseBody * option error :=
  fun _ req => (req, Some (NewError "twister: malformed form body")).

(** A random source that yields the same answer to every [Read]. *)
Definition constReader (data : list byte) (err : option error) : Reader :=
  {| reads := 0; source := fun _ => (data, err) |}.

(** The bytes de ad be ef, which the random source of the examples
    yields. *)
Definition beef : list byte := [xde; xad; xbe; xef].

(** The responder of the examples delivers the status and header it is
    given, so that what reached the network can be inspected. *)
Definition wire : Responder (Z * HeaderMap.t) := netResponder pair.

Definition exampleRequest (method : string) (cookie param : list string)
  : Request (Z * HeaderMap.t) :=
  {| RemoteAddr := "192.0.2.1:4711"; URLScheme := "http"; Method := method;
     Header := ∅;
     Cookie_ := if cookie is [] then ∅ else {[ XSRFCookieName := cookie ]};
     Param := if param is [] then ∅ else {[ XSRFParamName := param ]};
     ReqResponder := wire |}.

(** Filters that stamp the header, to observe the order of a chain. *)
Definition traceFilter (name : string) : Filter :=
  fun status header => (status, HeaderMap.Add header "X-Trace" name).

(** ** The proxy header handler and the deprecated form handler *)

Definition withRemoteAddr {ResponseBody : Type} (req : Request ResponseBody)
  (addr : string) : Request ResponseBody :=
  {| RemoteAddr := addr; URLScheme := URLScheme req; Method := Method req;
     Header := Header req; Cookie_ := Cookie_ req; Param := Param req;
     ReqResponder := ReqResponder req |}.

Definition withURLScheme {ResponseBody : Type} (req : Request ResponseBody)
  (scheme : string) : Request ResponseBody :=
  {| RemoteAddr := RemoteAddr req; URLScheme := scheme; Method := Method req;
     Header := Header req; Cookie_ := Cookie_ req; Param := Param req;
     ReqResponder := ReqResponder req |}.

Module Proxy.

Section ProxyHandler.

Variable ResponseBody : Type.

Record proxyHeaderHandler : Type := mkProxyHeaderHandler {
  addrName : string;
  schemeName : string;
  h : Handler ResponseBody
}.

(** [ProxyHeaderHandler] returns a handler that overrides
    [Request.RemoteAddr] with the value of the header [addrName] and
    [Request.URL.Scheme] with the value of the header [schemeName]. *)
Definition ProxyHeaderHandler (addrName schemeName : string)
  (h : Handler ResponseBody) : proxyHeaderHandler :=
  {| addrName := addrName; schemeName := schemeName; h := h |}.

Definition ServeWeb (ph : proxyHeaderHandler) : Handler ResponseBody :=
  fun req rnd =>
    let req :=
      let s := HeaderMap.Get (Header req) (addrName ph) in
      if negb (String.eqb s "") then withRemoteAddr req s else req in
    let req :=
      let s := HeaderMap.Get (Header req) (schemeName ph) in
      if negb (String.eqb s "") then withURLScheme req s else req in
    h ph req rnd.

End ProxyHandler.

Arguments mkProxyHeaderHandler {ResponseBody}.
Arguments addrName {ResponseBody} _.
Arguments schemeName {ResponseBody} _.
Arguments h {ResponseBody} _.
Arguments ProxyHeaderHandler {ResponseBody} addrName schemeName h.
Arguments ServeWeb {ResponseBody} ph req rnd.

End Proxy.

(** [ProcessForm] is deprecated: it is [FormHandler]. *)
Definition ProcessForm {ResponseBody : Type} (maxRequestBodyLen : Z)
  (checkXSRF : bool) (handler : Handler ResponseBody)
  : formHandler ResponseBody :=
  FormHandler maxRequestBodyLen checkXSRF handler.

(** ** Vocabulary of the further properties *)

(** One filter that does what F2 followed by F1 does. *)
Definition fuse (F1 F2 : Filter) : Filter :=
  fun status header =>
    let '(status2, header2) := F2 status header in F1 status2 header2.

(** A filter that never changes the status. *)
Definition keepsStatus (f : Filter) : Prop :=
  forall status header, fst (f status header) = status.

(** The request the XSRF block hands on, to the downstream handler or to
    [req.Error], once the expected token is known. *)
Definition handedOn {ResponseBody : Type} (expectedToken : string)
  (req : Request ResponseBody) : Request ResponseBody :=
  if String.eqb expectedToken (submittedToken req) then
    afterFallback expectedToken req
  else
    withParam req (ParamMap.Set_ (Param req) XSRFParamName expectedToken).

(** Reading a hexadecimal digit back. *)
Definition unhexdigit (c : ascii) : option N :=
  let n := N_of_ascii c in
  if ((48 <=? n) && (n <=? 57))%N then Some (n - 48)%N
  else if ((97 <=? n) && (n <=? 102))%N then Some (n - 87)%N
  else None.

(** Reading a hexadecimal string back into bytes, two digits a byte. *)
Fixpoint unhex (s : string) : option (list byte) :=
  match s with
  | EmptyString => Some []
  | String c1 (String c2 s') =>
      match unhexdigit c1, unhexdigit c2, unhex s' with
      | Some hi, Some lo, Some rest =>
          match Byte.of_N (hi * 16 + lo) with
          | Some v => Some (v :: rest)
          | None => None
          end
      | _, _, _ => None
      end
  | String _ EmptyString => None
  end.

(** A request that came through a reverse proxy. *)
Definition proxiedRequest : Request (Z * HeaderMap.t) :=
  {| RemoteAddr := "127.0.0.1:50000"; URLScheme := "http"; Method := "GET";
     Header := {[ "X-Real-Ip" := ["203.0.113.9"]; "X-Scheme" := ["https"] ]};
     Cookie_ := ∅; Param := ∅; ReqResponder := wire |}.

(** * Properties *)

(** ** Maps, buffers and the hex encoding *)

Lemma ParamMap_Get_Set (m : ParamMap.t) (key value : string) :
  ParamMap.Get (ParamMap.Set_ m key value) key = value.
Proof.
  unfold ParamMap.Get, ParamMap.Set_. by rewrite lookup_insert_eq.
Qed.

Lemma ParamMap_Set_Set (m : ParamMap.t) (key v w : string) :
  ParamMap.Set_ (ParamMap.Set_ m key v) key w = ParamMap.Set_ m key w.
Proof. unfold ParamMap.Set_. apply insert_insert_eq. Qed.

Lemma HeaderMap_Values_Add (m : HeaderMap.t) (key value : string) :
  HeaderMap.Values (HeaderMap.Add m key value) key =
  (HeaderMap.Values m key ++ [value])%list.
Proof.
  unfold HeaderMap.Values, HeaderMap.Add. by rewrite lookup_insert_eq.
Qed.

Lemma HeaderMap_Add_In (m : HeaderMap.t) (key value : string) :
  In value (HeaderMap.Values (HeaderMap.Add m key value) key).
Proof.
  rewrite HeaderMap_Values_Add. apply in_or_app. right. by left.
Qed.

Lemma copy_length (dst src : list byte) :
  length (copy dst src) = length dst.
Proof.
  unfold copy. rewrite length_app, length_take, length_drop. lia.
Qed.

Lemma copy_make (n : nat) (data : list byte) :
  copy (make n) data = (firstn n data ++ replicate (n - length data) x00)%list.
Proof.
  unfold copy, make. rewrite length_replicate. f_equal.
  apply drop_replicate.
Qed.

Lemma copy_make_full (n : nat) (data : list byte) :
  (n <= length data)%nat -> copy (make n) data = firstn n data.
Proof.
  intros Hn. rewrite copy_make.
  replace (n - length data)%nat with 0%nat by lia.
  apply app_nil_r.
Qed.

Lemma EncodeToString_length (src : list byte) :
  String.length (EncodeToString src) = (2 * length src)%nat.
Proof.
  induction src as [|v src IH]; simpl; [reflexivity|].
  rewrite IH. lia.
Qed.

Lemma hexdigit_high (v : byte) :
  isHexDigit (hexdigit (N.shiftr (Byte.to_N v) 4)) = true.
Proof. destruct v; reflexivity. Qed.

Lemma hexdigit_low (v : byte) :
  isHexDigit (hexdigit (N.land (Byte.to_N v) 15)) = true.
Proof. destruct v; reflexivity. Qed.

Lemma EncodeToString_allHex (src : list byte) :
  allHex (EncodeToString src) = true.
Proof.
  induction src as [|v src IH]; [reflexivity|].
  cbn [EncodeToString allHex].
  by rewrite hexdigit_high, hexdigit_low, IH.
Qed.

Lemma token_length (data : list byte) :
  String.length (EncodeToString (copy (make (tokenLen / 2)) data)) = tokenLen.
Proof.
  rewrite EncodeToString_length, copy_length. reflexivity.
Qed.

(** ** The filter chain *)

Section FilterChain.

Context {ResponseBody : Type}.

Implicit Types (req : Request ResponseBody) (rf : Responder ResponseBody).

Lemma FilterRespond_Respond req (filter : Filter) status header :
  Respond (ReqResponder (FilterRespond req filter)) status header =
  Respond (ReqResponder req) (fst (filter status header))
    (snd (filter status header)).
Proof. simpl. by destruct (filter status header). Qed.

(** A filter changes the responder and nothing else of the request. *)
Lemma FilterRespond_fields req (filter : Filter) :
  Param (FilterRespond req filter) = Param req /\
  Cookie_ (FilterRespond req filter) = Cookie_ req /\
  Header (FilterRespond req filter) = Header req /\
  Method (FilterRespond req filter) = Method req.
Proof. by repeat split. Qed.

Lemma installAll_Respond (filters : list Filter) req status header :
  Respond (ReqResponder (installAll req filters)) status header =
  Respond (ReqResponder req) (fst (runFilters filters status header))
    (snd (runFilters filters status header)).
Proof.
  revert req. induction filters as [|f filters IH]; intros req.
  - reflexivity.
  - change (installAll req (f :: filters))
      with (installAll (FilterRespond req f) filters).
    rewrite IH, FilterRespond_Respond. reflexivity.
Qed.

Lemma filterResponder_neq rf (filter : Filter) :
  filterResponder rf filter <> rf.
Proof. intros E. apply (f_equal depth) in E. simpl in E. lia. Qed.

(** C3 (as amended): with F1 installed and then F2, a call of the
    responder with status 200 and header H runs F2 first, passes its
    result to F1, and delivers F1's result, that is F1(F2(200, H)), to the
    original responder.  For any list of installed filters every filter
    runs, the last installed first. *)
Theorem filter_chain_last_installed_runs_first req (F1 F2 : Filter)
  (H : HeaderMap.t) :
  Respond (ReqResponder (FilterRespond (FilterRespond req F1) F2)) 200 H =
    (let '(status2, header2) := F2 200 H in
     let '(status1, header1) := F1 status2 header2 in
     Respond (ReqResponder req) status1 header1)
  /\ (forall (filters : list Filter) status header,
        Respond (ReqResponder (installAll req filters)) status header =
          (let '(status', header') := runFilters filters status header in
           Respond (ReqResponder req) status' header')
        /\ depth (ReqResponder (installAll req filters)) =
             (length filters + depth (ReqResponder req))%nat).
Proof.
  split.
  - rewrite !FilterRespond_Respond.
    destruct (F2 200 H) as [status2 header2]; simpl.
    by destruct (F1 status2 header2).
  - intros filters status header. split.
    + rewrite installAll_Respond.
      by destruct (runFilters filters status header).
    + revert req. induction filters as [|f filters IH]; intros req.
      * reflexivity.
      * change (installAll req (f :: filters))
          with (installAll (FilterRespond req f) filters).
        rewrite IH. simpl. lia.
Qed.

End FilterChain.

(** C3 (as stated) fails: with F1 installed before F2 the original
    responder does not receive F2(F1(200, H)).  F1 and F2 each add their
    name to the header; F2's name is added first. *)
Lemma filter_chain_not_F2_after_F1 :
  let F1 := traceFilter "F1" in
  let F2 := traceFilter "F2" in
  let req := exampleRequest "GET" [] [] in
  let delivered :=
    Respond (ReqResponder (FilterRespond (FilterRespond req F1) F2)) 200 ∅ in
  let '(status1, header1) := F1 200 ∅ in
  HeaderMap.Values (snd delivered) "X-Trace" = ["F2"; "F1"] /\
  HeaderMap.Values (snd (F2 status1 header1)) "X-Trace" = ["F1"; "F2"] /\
  delivered <> F2 status1 header1.
Proof.
  cbv zeta. split; [by vm_compute|]. split; [by vm_compute|].
  intros E.
  apply (f_equal (fun sh => HeaderMap.Values (snd sh) "X-Trace")) in E.
  vm_compute in E. discriminate E.
Qed.

(** ** The form handler *)

Lemma mutating_eqb (method : string) :
  String.eqb method "POST" || String.eqb method "PUT"
  || String.eqb method "DELETE" = true <-> mutating method.
Proof.
  unfold mutating. rewrite !orb_true_iff, !String.eqb_eq. tauto.
Qed.

Section FormHandlerProperties.

Context {ResponseBody : Type}.
Variable ParseForm :
  Z -> Request ResponseBody -> Request ResponseBody * option error.

Implicit Types (req : Request ResponseBody) (rnd : Reader)
  (downstream : Handler ResponseBody) (fh : formHandler ResponseBody).

Lemma withParam_Set_twice req (v w : string) :
  let req' := withParam req (ParamMap.Set_ (Param req) XSRFParamName v) in
  withParam req' (ParamMap.Set_ (Param req') XSRFParamName w) =
  withParam req (ParamMap.Set_ (Param req) XSRFParamName w).
Proof. unfold withParam; simpl. by rewrite ParamMap_Set_Set. Qed.

(** What [ServeWeb] does when form parsing fails. *)
Lemma ServeWeb_parse_error fh req req1 err rnd :
  ParseForm (maxRequestBodyLen fh) req = (req1, Some err) ->
  ServeWeb ParseForm fh req rnd =
    (Errored req1
       (if isErrRequestEntityTooLarge err then
          if String.eqb (HeaderMap.Get (Header req1) HeaderExpect) ""
          then StatusRequestEntityTooLarge
          else StatusExpectationFailed
        else StatusBadRequest)
       (NewError "twister: Error reading or parsing form."), rnd).
Proof.
  intros Hparse. unfold ServeWeb. rewrite Hparse.
  destruct (isErrRequestEntityTooLarge err); [|reflexivity].
  by destruct (String.eqb _ "").
Qed.

(** What [ServeWeb] does once the expected token is known. *)
Lemma ServeWeb_guard fh req req1 rnd expected req2 rnd' :
  checkXSRF fh = true ->
  ParseForm (maxRequestBodyLen fh) req = (req1, None) ->
  xsrfExpectedToken req1 rnd = (Ok (expected, req2), rnd') ->
  ServeWeb ParseForm fh req rnd =
    if String.eqb expected (submittedToken req2) then
      h fh (afterFallback expected req2) rnd'
    else
      let req3 :=
        withParam req2
          (ParamMap.Set_ (Param req2) XSRFParamName expected) in
      if String.eqb (Method req2) "POST" || String.eqb (Method req2) "PUT"
         || String.eqb (Method req2) "DELETE"
      then
        (Errored req3 StatusNotFound
           (NewError (if String.eqb (submittedToken req2) ""
                      then "twister: missing xsrf token"
                      else "twister: bad xsrf token")), rnd')
      else h fh req3 rnd'.
Proof.
  intros Hcheck Hparse Hexpected.
  unfold ServeWeb. rewrite Hparse, Hcheck, Hexpected.
  unfold submittedToken, afterFallback.
  destruct (String.eqb (ParamMap.Get (Param req2) XSRFParamName) "")
    eqn:Hparam.
  - destruct (String.eqb expected _); cbn [negb]; [reflexivity|].
    rewrite withParam_Set_twice.
    change (Method (withParam req2 _)) with (Method req2).
    destruct (_ || _); [|reflexivity].
    by destruct (String.eqb (HeaderMap.Get (Header req2) HeaderXXSRFToken) "").
  - destruct (String.eqb expected _); cbn [negb]; [reflexivity|].
    change (Method (withParam req2 _)) with (Method req2).
    destruct (_ || _); [|reflexivity].
    by rewrite Hparam.
Qed.

(** The two ways the expected token is obtained. *)
Lemma xsrfExpectedToken_reuse req rnd :
  String.length (ParamMap.Get (Cookie_ req) XSRFCookieName) = tokenLen ->
  xsrfExpectedToken req rnd =
    (Ok (ParamMap.Get (Cookie_ req) XSRFCookieName, req), rnd).
Proof.
  intros Hlen. unfold xsrfExpectedToken.
  by rewrite Hlen, Nat.eqb_refl.
Qed.

Lemma xsrfExpectedToken_mint req rnd :
  String.length (ParamMap.Get (Cookie_ req) XSRFCookieName) <> tokenLen ->
  xsrfExpectedToken req rnd =
    (match snd (source rnd (reads rnd)) with
     | Some _ => Panic "twister: rand read failed"
     | None =>
         let token :=
           EncodeToString
             (copy (make (tokenLen / 2)) (fst (source rnd (reads rnd)))) in
         Ok (token,
             FilterRespond req
               (setCookieFilter
                  (Cookie_String (NewCookie XSRFCookieName token))))
     end, advance rnd).
Proof.
  intros Hlen. unfold xsrfExpectedToken, Read.
  apply Nat.eqb_neq in Hlen. rewrite Hlen. cbn [negb].
  destruct (source rnd (reads rnd)) as [data [e|]]; reflexivity.
Qed.

End FormHandlerProperties.

Section XSRFGuard.

Context {ResponseBody : Type}.
Variable ParseForm :
  Z -> Request ResponseBody -> Request ResponseBody * option error.

Implicit Types (req : Request ResponseBody) (rnd : Reader)
  (downstream : Handler ResponseBody) (maxLen : Z).

Lemma afterFallback_Get expected req :
  submittedToken req = expected ->
  ParamMap.Get (Param (afterFallback expected req)) XSRFParamName = expected.
Proof.
  unfold submittedToken, afterFallback.
  destruct (String.eqb (ParamMap.Get (Param req) XSRFParamName) "");
    intros Hsub.
  - apply ParamMap_Get_Set.
  - exact Hsub.
Qed.

Lemma afterFallback_fields expected req :
  ReqResponder (afterFallback expected req) = ReqResponder req /\
  Cookie_ (afterFallback expected req) = Cookie_ req.
Proof.
  unfold afterFallback.
  by destruct (String.eqb (ParamMap.Get (Param req) XSRFParamName) "").
Qed.

(** C1 (as amended): when form parsing succeeded, XSRF checking is
    enabled, the [xsrf] cookie is absent or not 8 characters long, and
    the random source supplies the 4 requested bytes and reports no error,
    the token is the hex encoding of these 4 random bytes: 8 hexadecimal
    characters.  The call ends in the downstream handler or in the
    not-found error path, and in both the request's responder is the
    previous one behind a filter that adds [Set-Cookie: xsrf=token] and
    keeps the status, and the [xsrf] parameter reads the token. *)
Theorem xsrf_mint_sets_cookie_and_param maxLen downstream req req1 rnd
  (data : list byte) :
  ParseForm maxLen req = (req1, None) ->
  String.length (ParamMap.Get (Cookie_ req1) XSRFCookieName) <> 8%nat ->
  source rnd (reads rnd) = (data, None) ->
  (4 <= length data)%nat ->
  let token := EncodeToString (firstn 4 data) in
  let c := "xsrf=" ++ token in
  String.length token = 8%nat /\ allHex token = true /\
  exists req2,
    (ServeWeb ParseForm (FormHandler maxLen true downstream) req rnd =
       downstream req2 (advance rnd)
     \/ exists err,
         ServeWeb ParseForm (FormHandler maxLen true downstream) req rnd =
           (Errored req2 StatusNotFound err, advance rnd)) /\
    ReqResponder req2 =
      filterResponder (ReqResponder req1) (setCookieFilter c) /\
    (forall status header,
        Respond (ReqResponder req2) status header =
          Respond (ReqResponder req1) status
            (HeaderMap.Add header HeaderSetCookie c) /\
        In c (HeaderMap.Values (HeaderMap.Add header HeaderSetCookie c)
                HeaderSetCookie)) /\
    ParamMap.Get (Param req2) XSRFParamName = token.
Proof.
  intros Hparse Hlen Hsource Hfour token c.
  split.
  { subst token. rewrite EncodeToString_length, length_take. lia. }
  split; [apply EncodeToString_allHex|].
  pose proof (xsrfExpectedToken_mint req1 rnd Hlen) as Hexpected.
  rewrite Hsource in Hexpected. cbn [fst snd] in Hexpected.
  change (tokenLen / 2)%nat with 4%nat in Hexpected.
  rewrite (copy_make_full 4 data Hfour) in Hexpected.
  pose proof (ServeWeb_guard ParseForm (FormHandler maxLen true downstream)
                req req1 rnd _ _ _ eq_refl Hparse Hexpected) as Hserve.
  cbv zeta in Hserve.
  change (EncodeToString (firstn 4 data)) with token in Hserve.
  change (Cookie_String (NewCookie XSRFCookieName token)) with c in Hserve.
  set (req2 := FilterRespond req1 (setCookieFilter c)) in Hserve.
  assert (Hgoal : forall req3,
    ReqResponder req3 = ReqResponder req2 ->
    ParamMap.Get (Param req3) XSRFParamName = token ->
    ReqResponder req3 =
      filterResponder (ReqResponder req1) (setCookieFilter c) /\
    (forall status header,
        Respond (ReqResponder req3) status header =
          Respond (ReqResponder req1) status
            (HeaderMap.Add header HeaderSetCookie c) /\
        In c (HeaderMap.Values (HeaderMap.Add header HeaderSetCookie c)
                HeaderSetCookie)) /\
    ParamMap.Get (Param req3) XSRFParamName = token).
  { intros req3 Hresp Hget. rewrite Hresp. split; [reflexivity|].
    split; [|exact Hget].
    intros status header. split; [reflexivity|apply HeaderMap_Add_In]. }
  destruct (String.eqb token (submittedToken req2)) eqn:Hmatch.
  - apply String.eqb_eq in Hmatch.
    exists (afterFallback token req2). split; [by left|].
    apply Hgoal.
    + apply afterFallback_fields.
    + by apply afterFallback_Get.
  - exists (withParam req2 (ParamMap.Set_ (Param req2) XSRFParamName token)).
    split.
    + destruct (_ || _); [right; eexists; exact Hserve | by left].
    + apply Hgoal; [reflexivity|apply ParamMap_Get_Set].
Qed.

(** C2: with XSRF checking enabled and a mutating method, when the
    submitted token differs from the expected token the call ends in
    [req.Error] with the not-found status, whatever the downstream handler
    is: the error is "missing xsrf token" when the submitted token is
    empty and "bad xsrf token" otherwise. *)
Theorem xsrf_mismatch_rejects_mutating maxLen downstream req req1 rnd
  expected req2 rnd' :
  ParseForm maxLen req = (req1, None) ->
  xsrfExpectedToken req1 rnd = (Ok (expected, req2), rnd') ->
  submittedToken req2 <> expected ->
  mutating (Method req2) ->
  ServeWeb ParseForm (FormHandler maxLen true downstream) req rnd =
    (Errored
       (withParam req2 (ParamMap.Set_ (Param req2) XSRFParamName expected))
       StatusNotFound
       (NewError (if String.eqb (submittedToken req2) ""
                  then "twister: missing xsrf token"
                  else "twister: bad xsrf token")), rnd').
Proof.
  intros Hparse Hexpected Hneq Hmethod.
  rewrite (ServeWeb_guard ParseForm (FormHandler maxLen true downstream)
             req req1 rnd expected req2 rnd' eq_refl Hparse Hexpected).
  assert (String.eqb expected (submittedToken req2) = false) as ->
    by (apply String.eqb_neq; congruence).
  apply mutating_eqb in Hmethod. cbv zeta. by rewrite Hmethod.
Qed.

(** C5: with XSRF checking enabled and a method other than POST, PUT and
    DELETE, when the submitted token differs from the expected token the
    downstream handler is invoked, on a request whose [xsrf] parameter has
    been set to the expected token. *)
Theorem xsrf_mismatch_passes_safe_method maxLen downstream req req1 rnd
  expected req2 rnd' :
  ParseForm maxLen req = (req1, None) ->
  xsrfExpectedToken req1 rnd = (Ok (expected, req2), rnd') ->
  submittedToken req2 <> expected ->
  ~ mutating (Method req2) ->
  let req3 :=
    withParam req2 (ParamMap.Set_ (Param req2) XSRFParamName expected) in
  ServeWeb ParseForm (FormHandler maxLen true downstream) req rnd =
    downstream req3 rnd'
  /\ Param req3 = ParamMap.Set_ (Param req2) XSRFParamName expected
  /\ ParamMap.Get (Param req3) XSRFParamName = expected.
Proof.
  intros Hparse Hexpected Hneq Hmethod req3.
  split; [|split; [reflexivity|apply ParamMap_Get_Set]].
  rewrite (ServeWeb_guard ParseForm (FormHandler maxLen true downstream)
             req req1 rnd expected req2 rnd' eq_refl Hparse Hexpected).
  assert (String.eqb expected (submittedToken req2) = false) as ->
    by (apply String.eqb_neq; congruence).
  cbv zeta.
  destruct (_ || _) eqn:Hm; [|reflexivity].
  by apply mutating_eqb in Hm.
Qed.

(** C4 (as amended): with XSRF checking enabled, when the [xsrf] cookie
    has exactly 8 characters and equals the submitted token, the
    downstream handler is invoked and no token is minted: the random
    source is not read and the responder and the cookies of the request
    are the ones it had after form parsing. *)
Theorem xsrf_cookie_match_delegates_without_mint maxLen downstream req req1
  rnd :
  ParseForm maxLen req = (req1, None) ->
  String.length (ParamMap.Get (Cookie_ req1) XSRFCookieName) = 8%nat ->
  submittedToken req1 = ParamMap.Get (Cookie_ req1) XSRFCookieName ->
  let req2 :=
    afterFallback (ParamMap.Get (Cookie_ req1) XSRFCookieName) req1 in
  ServeWeb ParseForm (FormHandler maxLen true downstream) req rnd =
    downstream req2 rnd
  /\ ReqResponder req2 = ReqResponder req1
  /\ Cookie_ req2 = Cookie_ req1.
Proof.
  intros Hparse Hlen Hsub req2.
  split; [|apply afterFallback_fields].
  rewrite (ServeWeb_guard ParseForm (FormHandler maxLen true downstream)
             req req1 rnd _ _ _ eq_refl Hparse
             (xsrfExpectedToken_reuse req1 rnd Hlen)).
  rewrite Hsub. by rewrite String.eqb_refl.
Qed.

(** C7 (as amended): with XSRF checking enabled, when the expected and
    the submitted token match, the downstream handler is invoked on a
    request whose [xsrf] parameter reads the expected token.  The
    parameter is set (replaced by the single expected value) only when it
    was empty and the token came from the header; when the matching value
    came from the parameter itself the request is left as it is. *)
Theorem xsrf_match_param_reads_expected maxLen downstream req req1 rnd
  expected req2 rnd' :
  ParseForm maxLen req = (req1, None) ->
  xsrfExpectedToken req1 rnd = (Ok (expected, req2), rnd') ->
  submittedToken req2 = expected ->
  let req3 := afterFallback expected req2 in
  ServeWeb ParseForm (FormHandler maxLen true downstream) req rnd =
    downstream req3 rnd'
  /\ ParamMap.Get (Param req3) XSRFParamName = expected
  /\ (ParamMap.Get (Param req2) XSRFParamName = "" ->
      Param req3 = ParamMap.Set_ (Param req2) XSRFParamName expected)
  /\ (ParamMap.Get (Param req2) XSRFParamName <> "" -> req3 = req2).
Proof.
  intros Hparse Hexpected Hsub req3.
  split; [|split; [by apply afterFallback_Get|]].
  - rewrite (ServeWeb_guard ParseForm (FormHandler maxLen true downstream)
               req req1 rnd expected req2 rnd' eq_refl Hparse Hexpected).
    by rewrite Hsub, String.eqb_refl.
  - subst req3. unfold afterFallback. split; intros Hparam.
    + by rewrite Hparam.
    + apply String.eqb_neq in Hparam. by rewrite Hparam.
Qed.

(** C6 (as amended): with XSRF checking disabled, when form parsing
    succeeds the downstream handler is invoked on the request exactly as
    form parsing left it (cookies, parameters and responder untouched)
    and the random source is not read. *)
Theorem xsrf_disabled_delegates_untouched maxLen downstream req req1 rnd :
  ParseForm maxLen req = (req1, None) ->
  ServeWeb ParseForm (FormHandler maxLen false downstream) req rnd =
    downstream req1 rnd.
Proof.
  intros Hparse. unfold ServeWeb. cbn [maxRequestBodyLen FormHandler].
  by rewrite Hparse.
Qed.

(** C8: when form parsing fails the call ends in [req.Error], whatever
    the downstream handler and the XSRF setting are: with status
    request-entity-too-large when the error is that the body is too
    large, expectation-failed when in addition the Expect header is not
    empty, and bad-request for every other error. *)
Theorem parse_failure_statuses maxLen (check : bool) downstream req req1
  (err : error) rnd :
  ParseForm maxLen req = (req1, Some err) ->
  exists status,
    ServeWeb ParseForm (FormHandler maxLen check downstream) req rnd =
      (Errored req1 status
         (NewError "twister: Error reading or parsing form."), rnd)
    /\ (err = ErrRequestEntityTooLarge ->
        HeaderMap.Get (Header req1) HeaderExpect = "" ->
        status = StatusRequestEntityTooLarge)
    /\ (err = ErrRequestEntityTooLarge ->
        HeaderMap.Get (Header req1) HeaderExpect <> "" ->
        status = StatusExpectationFailed)
    /\ (err <> ErrRequestEntityTooLarge -> status = StatusBadRequest).
Proof.
  intros Hparse. eexists. split.
  - apply (ServeWeb_parse_error ParseForm
             (FormHandler maxLen check downstream)). exact Hparse.
  - destruct err as [|msg]; cbn [isErrRequestEntityTooLarge].
    + destruct (String.eqb _ "") eqn:Hexpect;
        [apply String.eqb_eq in Hexpect|apply String.eqb_neq in Hexpect];
        repeat split; intros; congruence.
    + repeat split; intros; congruence.
Qed.

(** X18: with XSRF checking enabled and an [xsrf] cookie that is absent
    or not 8 characters long, when the read of the random source reports
    an error the handler panics: whatever bytes came with the error, no
    token is made, the downstream handler is not invoked and [req.Error]
    is not called. *)
Theorem rand_failure_panics maxLen downstream req req1 rnd
  (data : list byte) (e : error) :
  ParseForm maxLen req = (req1, None) ->
  String.length (ParamMap.Get (Cookie_ req1) XSRFCookieName) <> 8%nat ->
  source rnd (reads rnd) = (data, Some e) ->
  xsrfExpectedToken req1 rnd =
    (Panic "twister: rand read failed", advance rnd)
  /\ ServeWeb ParseForm (FormHandler maxLen true downstream) req rnd =
       (Panicked "twister: rand read failed", advance rnd).
Proof.
  intros Hparse Hlen Hsource.
  pose proof (xsrfExpectedToken_mint req1 rnd Hlen) as Hexpected.
  rewrite Hsource in Hexpected. cbn [fst snd] in Hexpected.
  split; [exact Hexpected|].
  unfold ServeWeb. cbn [maxRequestBodyLen checkXSRF FormHandler].
  by rewrite Hparse, Hexpected.
Qed.

(** C10: the length of the [xsrf] cookie is the only thing checked.  A
    cookie value of exactly 8 characters, whatever its content, is the
    expected token, and the request and the random source are left as
    they are.  Any other length makes the handler read the random source:
    when the read reports an error the handler panics, and otherwise the
    expected token is the hex encoding of the buffer, 8 characters, and the
    cookie filter for it is installed.  So the random source is read if
    and only if the length is not 8, and a new token with its filter
    results if and only if the length is not 8 and the read reports no
    error. *)
Theorem cookie_length_alone_decides_minting req rnd :
  let cookie := ParamMap.Get (Cookie_ req) XSRFCookieName in
  (String.length cookie = 8%nat ->
   xsrfExpectedToken req rnd = (Ok (cookie, req), rnd))
  /\ (String.length cookie <> 8%nat ->
      (forall data e,
          source rnd (reads rnd) = (data, Some e) ->
          xsrfExpectedToken req rnd =
            (Panic "twister: rand read failed", advance rnd))
      /\ (forall data,
            source rnd (reads rnd) = (data, None) ->
            let token := EncodeToString (copy (make 4) data) in
            String.length token = 8%nat /\
            xsrfExpectedToken req rnd =
              (Ok (token,
                   FilterRespond req (setCookieFilter ("xsrf=" ++ token))),
               advance rnd)))
  /\ (reads (snd (xsrfExpectedToken req rnd)) = S (reads rnd) <->
      String.length cookie <> 8%nat)
  /\ ((exists token req2,
         fst (xsrfExpectedToken req rnd) = Ok (token, req2) /\
         ReqResponder req2 <> ReqResponder req)
      <-> (String.length cookie <> 8%nat /\
           snd (source rnd (reads rnd)) = None)).
Proof.
  intros cookie.
  assert (Hreuse : String.length cookie = 8%nat ->
                   xsrfExpectedToken req rnd = (Ok (cookie, req), rnd))
    by apply xsrfExpectedToken_reuse.
  assert (Hmint : String.length cookie <> 8%nat ->
                  snd (xsrfExpectedToken req rnd) = advance rnd).
  { intros Hlen. by rewrite (xsrfExpectedToken_mint req rnd Hlen). }
  split; [exact Hreuse|]. split; [|split].
  - intros Hlen. split.
    + intros data e Hsource.
      by rewrite (xsrfExpectedToken_mint req rnd Hlen), Hsource.
    + intros data Hsource token. split; [apply token_length|].
      by rewrite (xsrfExpectedToken_mint req rnd Hlen), Hsource.
  - split.
    + intros Hreads Hlen. rewrite (Hreuse Hlen) in Hreads.
      cbn [snd] in Hreads. lia.
    + intros Hlen. by rewrite (Hmint Hlen).
  - destruct (Nat.eq_dec (String.length cookie) 8%nat) as [Hlen|Hlen].
    + rewrite (Hreuse Hlen). cbn [fst]. split.
      * intros (token & req2 & E & Hne). injection E as _ <-. by destruct Hne.
      * intros [Hne _]. by destruct Hne.
    + rewrite (xsrfExpectedToken_mint req rnd Hlen). cbn [fst].
      destruct (source rnd (reads rnd)) as [data [e|]]; cbn [fst snd].
      * split; [intros (token & req2 & E & _); discriminate E|].
        intros [_ E]. discriminate E.
      * split; [by intros _|]. intros _. eexists. eexists.
        split; [reflexivity|]. apply filterResponder_neq.
Qed.

End XSRFGuard.

(** * The claims on concrete requests *)

(** C1 on a first visit: no cookie, GET, no parameter.  The request is
    served with parameter [xsrf = deadbeef] behind a filter that adds
    [Set-Cookie: xsrf=deadbeef]. *)
Lemma xsrf_mint_first_visit :
  let req := exampleRequest "GET" [] [] in
  let rnd := constReader beef None in
  let fh := FormHandler 1024 true Serve in
  ParseFormSized 0 1024 req = (req, None) /\
  String.length (ParamMap.Get (Cookie_ req) XSRFCookieName) <> 8%nat /\
  source rnd (reads rnd) = (beef, None) /\
  (4 <= length beef)%nat /\
  String.length "deadbeef" = 8%nat /\ allHex "deadbeef" = true /\
  exists req2,
    (ServeWeb (ParseFormSized 0) fh req rnd = Serve req2 (advance rnd)
     \/ exists err,
         ServeWeb (ParseFormSized 0) fh req rnd =
           (Errored req2 StatusNotFound err, advance rnd)) /\
    ReqResponder req2 =
      filterResponder wire (setCookieFilter "xsrf=deadbeef") /\
    (forall status header,
        Respond (ReqResponder req2) status header =
          (status, HeaderMap.Add header HeaderSetCookie "xsrf=deadbeef") /\
        In "xsrf=deadbeef"
          (HeaderMap.Values
             (HeaderMap.Add header HeaderSetCookie "xsrf=deadbeef")
             HeaderSetCookie)) /\
    ParamMap.Get (Param req2) XSRFParamName = "deadbeef".
Proof.
  cbv zeta.
  assert (Hparse : ParseFormSized 0 1024 (exampleRequest "GET" [] []) =
                   (exampleRequest "GET" [] [], None)) by reflexivity.
  assert (Hlen : String.length
                   (ParamMap.Get (Cookie_ (exampleRequest "GET" [] []))
                      XSRFCookieName) <> 8%nat) by (vm_compute; lia).
  assert (Hsource : source (constReader beef None)
                      (reads (constReader beef None)) = (beef, None))
    by reflexivity.
  assert (Hfour : (4 <= length beef)%nat) by (vm_compute; lia).
  split; [exact Hparse|]. split; [exact Hlen|]. split; [exact Hsource|].
  split; [exact Hfour|].
  exact (xsrf_mint_sets_cookie_and_param (ParseFormSized 0) 1024 Serve
           _ _ _ beef Hparse Hlen Hsource Hfour).
Defined.

(** C1 (as stated) fails.  With no cookie and XSRF checking enabled: when
    the random source reports an error the handler panics and no token
    exists; when the body of a POST request is too large the error path
    answers through the request's own responder, which adds no
    [Set-Cookie]. *)
Lemma xsrf_mint_not_for_every_request :
  let req := exampleRequest "GET" [] [] in
  let post := exampleRequest "POST" [] [] in
  let fh := FormHandler 1024 true Serve in
  let broken := constReader [] (Some (NewError "rand: source unavailable")) in
  String.length (ParamMap.Get (Cookie_ req) XSRFCookieName) <> 8%nat /\
  ServeWeb (ParseFormSized 0) fh req broken =
    (Panicked "twister: rand read failed", advance broken) /\
  String.length (ParamMap.Get (Cookie_ post) XSRFCookieName) <> 8%nat /\
  ServeWeb (ParseFormSized 4096) fh post (constReader beef None) =
    (Errored post StatusRequestEntityTooLarge
       (NewError "twister: Error reading or parsing form."),
     constReader beef None) /\
  HeaderMap.Values
    (snd (Respond (ReqResponder post) StatusRequestEntityTooLarge ∅))
    HeaderSetCookie = [].
Proof.
  cbv zeta. split; [vm_compute; lia|]. split; [reflexivity|].
  split; [vm_compute; lia|]. by split.
Qed.

(** C2 on the two rejected POST requests of the specification: cookie
    [abcd1234] with parameter [wrongtok], and with no parameter and no
    header. *)
Lemma xsrf_mismatch_post_bad_and_missing :
  let fh := FormHandler 1024 true Serve in
  let rnd := constReader beef None in
  let bad := exampleRequest "POST" ["abcd1234"] ["wrongtok"] in
  let missing := exampleRequest "POST" ["abcd1234"] [] in
  (ParseFormSized 0 1024 bad = (bad, None) /\
   xsrfExpectedToken bad rnd = (Ok ("abcd1234", bad), rnd) /\
   submittedToken bad <> "abcd1234" /\
   mutating (Method bad) /\
   ServeWeb (ParseFormSized 0) fh bad rnd =
     (Errored
        (withParam bad (ParamMap.Set_ (Param bad) XSRFParamName "abcd1234"))
        StatusNotFound (NewError "twister: bad xsrf token"), rnd))
  /\ ServeWeb (ParseFormSized 0) fh missing rnd =
       (Errored
          (withParam missing
             (ParamMap.Set_ (Param missing) XSRFParamName "abcd1234"))
          StatusNotFound (NewError "twister: missing xsrf token"), rnd).
Proof.
  cbv zeta.
  assert (Hpost : forall param,
            mutating (Method (exampleRequest "POST" ["abcd1234"] param)))
    by (intros param; by left).
  split.
  - set (bad := exampleRequest "POST" ["abcd1234"] ["wrongtok"]).
    assert (Hsub : submittedToken bad <> "abcd1234")
      by (vm_compute; congruence).
    split; [reflexivity|]. split; [reflexivity|]. split; [exact Hsub|].
    split; [apply Hpost|].
    exact (xsrf_mismatch_rejects_mutating (ParseFormSized 0) 1024 Serve
             bad bad _ "abcd1234" bad _ eq_refl eq_refl Hsub (Hpost _)).
  - set (missing := exampleRequest "POST" ["abcd1234"] []).
    assert (Hsub : submittedToken missing <> "abcd1234")
      by (vm_compute; congruence).
    exact (xsrf_mismatch_rejects_mutating (ParseFormSized 0) 1024 Serve
             missing missing _ "abcd1234" missing _ eq_refl eq_refl Hsub
             (Hpost _)).
Defined.

(** C4 on the accepted POST request of the specification: cookie and
    parameter [abcd1234].  The request is served as it is; the random
    source is not read. *)
Lemma xsrf_cookie_match_post :
  let fh := FormHandler 1024 true Serve in
  let rnd := constReader beef None in
  let req := exampleRequest "POST" ["abcd1234"] ["abcd1234"] in
  ParseFormSized 0 1024 req = (req, None) /\
  String.length (ParamMap.Get (Cookie_ req) XSRFCookieName) = 8%nat /\
  submittedToken req = ParamMap.Get (Cookie_ req) XSRFCookieName /\
  ServeWeb (ParseFormSized 0) fh req rnd = (Served req, rnd) /\
  ReqResponder req = wire /\
  Cookie_ req = {[ XSRFCookieName := ["abcd1234"] ]}.
Proof.
  cbv zeta.
  set (req := exampleRequest "POST" ["abcd1234"] ["abcd1234"]).
  assert (Hlen : String.length (ParamMap.Get (Cookie_ req) XSRFCookieName) =
                 8%nat) by reflexivity.
  assert (Hsub : submittedToken req =
                 ParamMap.Get (Cookie_ req) XSRFCookieName) by reflexivity.
  split; [reflexivity|]. split; [exact Hlen|]. split; [exact Hsub|].
  exact (xsrf_cookie_match_delegates_without_mint (ParseFormSized 0) 1024
           Serve req req (constReader beef None) eq_refl Hlen Hsub).
Defined.

(** C4 (as stated) fails.  A 3-character cookie that equals the submitted
    parameter: a token is minted (one read of the random source, a
    [Set-Cookie] filter) and the POST request is rejected, not served. *)
Lemma xsrf_short_cookie_match_is_rejected :
  let req := exampleRequest "POST" ["abc"] ["abc"] in
  let rnd := constReader beef None in
  let out := ServeWeb (ParseFormSized 0) (FormHandler 1024 true Serve) req rnd in
  submittedToken req = ParamMap.Get (Cookie_ req) XSRFCookieName /\
  (forall req', fst out <> Served req') /\
  reads (snd out) = S (reads rnd) /\
  exists req',
    fst out = Errored req' StatusNotFound (NewError "twister: bad xsrf token")
    /\ HeaderMap.Values (snd (Respond (ReqResponder req') StatusNotFound ∅))
         HeaderSetCookie = ["xsrf=deadbeef"].
Proof.
  cbv zeta. split; [reflexivity|]. split; [|split; [reflexivity|]].
  - intros req' E. vm_compute in E. discriminate E.
  - eexists. split; reflexivity.
Qed.

(** C5 on a GET request with cookie [abcd1234] and parameter [wrongtok]:
    it is served, with the parameter replaced by [abcd1234]. *)
Lemma xsrf_mismatch_get_is_served :
  let fh := FormHandler 1024 true Serve in
  let rnd := constReader beef None in
  let req := exampleRequest "GET" ["abcd1234"] ["wrongtok"] in
  let req3 := withParam req {[ XSRFParamName := ["abcd1234"] ]} in
  ParseFormSized 0 1024 req = (req, None) /\
  xsrfExpectedToken req rnd = (Ok ("abcd1234", req), rnd) /\
  submittedToken req <> "abcd1234" /\
  ~ mutating (Method req) /\
  ServeWeb (ParseFormSized 0) fh req rnd = (Served req3, rnd) /\
  ParamMap.Get (Param req3) XSRFParamName = "abcd1234".
Proof.
  cbv zeta.
  set (req := exampleRequest "GET" ["abcd1234"] ["wrongtok"]).
  assert (Hsub : submittedToken req <> "abcd1234")
    by (vm_compute; congruence).
  assert (Hmethod : ~ mutating (Method req))
    by (intros [E|[E|E]]; vm_compute in E; congruence).
  split; [reflexivity|]. split; [reflexivity|]. split; [exact Hsub|].
  split; [exact Hmethod|].
  destruct (xsrf_mismatch_passes_safe_method (ParseFormSized 0) 1024 Serve
              req req (constReader beef None) "abcd1234" req
              (constReader beef None) eq_refl eq_refl Hsub Hmethod)
    as (Hserve & Hparam & Hget).
  split; [|exact Hget].
  rewrite Hserve. unfold Serve. do 2 f_equal.
Defined.

(** C6 with XSRF checking disabled and a 10-byte body under a limit of
    1024: the request is served as it is, although its cookie is short and
    its parameter does not match. *)
Lemma xsrf_disabled_post_is_served :
  let req := exampleRequest "POST" ["abc"] ["wrongtok"] in
  let rnd := constReader beef None in
  ParseFormSized 10 1024 req = (req, None) /\
  ServeWeb (ParseFormSized 10) (FormHandler 1024 false Serve) req rnd =
    (Served req, rnd).
Proof.
  cbv zeta. split; [reflexivity|].
  exact (xsrf_disabled_delegates_untouched (ParseFormSized 10) 1024 Serve
           _ _ _ eq_refl).
Defined.

(** C6 (as stated) fails.  With XSRF checking disabled and a 4096-byte body
    over a limit of 1024, the call ends in the error path: the downstream
    handler is not invoked. *)
Lemma xsrf_disabled_large_body_not_served :
  let req := exampleRequest "POST" ["abcd1234"] ["abcd1234"] in
  let rnd := constReader beef None in
  let out :=
    ServeWeb (ParseFormSized 4096) (FormHandler 1024 false Serve) req rnd in
  out = (Errored req StatusRequestEntityTooLarge
           (NewError "twister: Error reading or parsing form."), rnd)
  /\ (forall req', fst out <> Served req').
Proof.
  cbv zeta. split; [reflexivity|].
  intros req' E. vm_compute in E. discriminate E.
Qed.

(** C7 on a POST request with cookie and parameter [abcd1234]: it is
    served as it is, and its parameter reads [abcd1234]. *)
Lemma xsrf_match_post_param :
  let fh := FormHandler 1024 true Serve in
  let rnd := constReader beef None in
  let req := exampleRequest "POST" ["abcd1234"] ["abcd1234"] in
  ParseFormSized 0 1024 req = (req, None) /\
  xsrfExpectedToken req rnd = (Ok ("abcd1234", req), rnd) /\
  submittedToken req = "abcd1234" /\
  ServeWeb (ParseFormSized 0) fh req rnd = (Served req, rnd) /\
  ParamMap.Get (Param req) XSRFParamName = "abcd1234".
Proof.
  cbv zeta.
  set (req := exampleRequest "POST" ["abcd1234"] ["abcd1234"]).
  split; [reflexivity|]. split; [reflexivity|]. split; [reflexivity|].
  destruct (xsrf_match_param_reads_expected (ParseFormSized 0) 1024 Serve
              req req (constReader beef None) "abcd1234" req
              (constReader beef None) eq_refl eq_refl eq_refl)
    as (Hserve & Hget & _ & _).
  split; [exact Hserve|exact Hget].
Defined.

(** C7 (as stated) fails.  The [xsrf] parameter holds two values, the
    first of which matches the cookie: the request is served with both
    values still there, whereas setting the parameter would have left the
    single value [abcd1234]. *)
Lemma xsrf_match_does_not_set_param :
  let req := exampleRequest "POST" ["abcd1234"] ["abcd1234"; "stale"] in
  let rnd := constReader beef None in
  let out := ServeWeb (ParseFormSized 0) (FormHandler 1024 true Serve) req rnd in
  xsrfExpectedToken req rnd = (Ok ("abcd1234", req), rnd) /\
  submittedToken req = "abcd1234" /\
  out = (Served req, rnd) /\
  Param req !! XSRFParamName = Some ["abcd1234"; "stale"] /\
  ParamMap.Set_ (Param req) XSRFParamName "abcd1234" !! XSRFParamName =
    Some ["abcd1234"] /\
  Param req <> ParamMap.Set_ (Param req) XSRFParamName "abcd1234".
Proof.
  cbv zeta. repeat (split; [reflexivity|]).
  intros E. apply (f_equal (fun m : ParamMap.t => m !! XSRFParamName)) in E.
  vm_compute in E. discriminate E.
Qed.

(** C8 on a 4096-byte body over a limit of 1024, without an Expect
    header: request-entity-too-large. *)
Lemma parse_failure_too_large :
  let req := exampleRequest "POST" ["abcd1234"] ["abcd1234"] in
  let rnd := constReader beef None in
  ParseFormSized 4096 1024 req = (req, Some ErrRequestEntityTooLarge) /\
  ServeWeb (ParseFormSized 4096) (FormHandler 1024 true Serve) req rnd =
    (Errored req StatusRequestEntityTooLarge
       (NewError "twister: Error reading or parsing form."), rnd).
Proof.
  cbv zeta. split; [reflexivity|].
  destruct (parse_failure_statuses (ParseFormSized 4096) 1024 true Serve
              (exampleRequest "POST" ["abcd1234"] ["abcd1234"])
              (exampleRequest "POST" ["abcd1234"] ["abcd1234"])
              ErrRequestEntityTooLarge (constReader beef None) eq_refl)
    as (status & Hserve & Hlarge & _ & _).
  rewrite Hserve, (Hlarge eq_refl eq_refl). reflexivity.
Defined.

(** C9: the handler does not abort when the random source fails to supply
    the bytes without reporting an error, because it discards the number
    of bytes read.  With a source that supplies one byte, or none, a first
    visit is served and given the token [de000000], or [00000000], in its
    parameter and its [Set-Cookie]; and with the source that supplies
    nothing a POST request without cookie that submits [00000000] is
    served. *)
Lemma rand_short_read_issues_weak_token :
  let fh := FormHandler 1024 true Serve in
  let first := exampleRequest "GET" [] [] in
  let forged := exampleRequest "POST" [] ["00000000"] in
  let served (req : Request (Z * HeaderMap.t)) rnd :=
    match fst (ServeWeb (ParseFormSized 0) fh req rnd) with
    | Served req' =>
        Some (ParamMap.Get (Param req') XSRFParamName,
              HeaderMap.Values (snd (Respond (ReqResponder req') 200 ∅))
                HeaderSetCookie)
    | _ => None
    end in
  served first (constReader [xde] None) =
    Some ("de000000", ["xsrf=de000000"])
  /\ served first (constReader [] None) =
       Some ("00000000", ["xsrf=00000000"])
  /\ served forged (constReader [] None) =
       Some ("00000000", ["xsrf=00000000"]).
Proof. cbv zeta. repeat split; vm_compute; reflexivity. Qed.

(** X18 on a first visit when the random source reports an error. *)
Lemma rand_failure_first_visit :
  let req := exampleRequest "GET" [] [] in
  let broken := constReader [] (Some (NewError "rand: source unavailable")) in
  ParseFormSized 0 1024 req = (req, None) /\
  String.length (ParamMap.Get (Cookie_ req) XSRFCookieName) <> 8%nat /\
  source broken (reads broken) =
    ([], Some (NewError "rand: source unavailable")) /\
  ServeWeb (ParseFormSized 0) (FormHandler 1024 true Serve) req broken =
    (Panicked "twister: rand read failed", advance broken).
Proof.
  cbv zeta.
  assert (Hlen : String.length
                   (ParamMap.Get (Cookie_ (exampleRequest "GET" [] []))
                      XSRFCookieName) <> 8%nat) by (vm_compute; lia).
  split; [reflexivity|]. split; [exact Hlen|]. split; [reflexivity|].
  exact (proj2 (rand_failure_panics (ParseFormSized 0) 1024 Serve
                  (exampleRequest "GET" [] []) (exampleRequest "GET" [] [])
                  (constReader [] (Some (NewError "rand: source unavailable")))
                  [] (NewError "rand: source unavailable") eq_refl Hlen
                  eq_refl)).
Defined.

(** C10 on a cookie of 8 characters that is not hexadecimal: it is the
    expected token, and a POST request that submits it is served. *)
Example xsrf_non_hex_cookie_accepted :
  let req := exampleRequest "POST" ["not-hex!"] ["not-hex!"] in
  let rnd := constReader beef None in
  allHex "not-hex!" = false /\
  xsrfExpectedToken req rnd = (Ok ("not-hex!", req), rnd) /\
  ServeWeb (ParseFormSized 0) (FormHandler 1024 true Serve) req rnd =
    (Served req, rnd).
Proof. cbv zeta. by repeat split. Qed.

(** The header fallback: a POST request with cookie [abcd1234], no [xsrf]
    parameter and the token in the [X-XSRFToken] header is served, with
    the parameter set to the token. *)
Example xsrf_header_token_accepted :
  let req : Request (Z * HeaderMap.t) :=
    {| RemoteAddr := "192.0.2.1:4711"; URLScheme := "http"; Method := "POST";
       Header := {[ HeaderXXSRFToken := ["abcd1234"] ]};
       Cookie_ := {[ XSRFCookieName := ["abcd1234"] ]};
       Param := ∅; ReqResponder := wire |} in
  let rnd := constReader beef None in
  submittedToken req = "abcd1234" /\
  ServeWeb (ParseFormSized 0) (FormHandler 1024 true Serve) req rnd =
    (Served (withParam req {[ XSRFParamName := ["abcd1234"] ]}), rnd).
Proof. cbv zeta. split; [reflexivity|]. vm_compute. reflexivity. Qed.

(** The handler discards the number of bytes read: a read that yields one
    byte and no error leaves the rest of the buffer at zero, and the token
    is made from it. *)
Example xsrf_short_read_token :
  let req := exampleRequest "GET" [] [] in
  xsrfExpectedToken req (constReader [xde] None) =
    (Ok ("de000000", FilterRespond req (setCookieFilter "xsrf=de000000")),
     advance (constReader [xde] None)).
Proof. reflexivity. Qed.

(** The other two statuses of a failed form parse: expectation-failed for
    a body over the limit on a request with an Expect header, and
    bad-request for a malformed body. *)
Example parse_failure_expect_and_malformed :
  let req : Request (Z * HeaderMap.t) :=
    {| RemoteAddr := "192.0.2.1:4711"; URLScheme := "http"; Method := "POST";
       Header := {[ HeaderExpect := ["100-continue"] ]};
       Cookie_ := ∅; Param := ∅; ReqResponder := wire |} in
  let rnd := constReader beef None in
  ServeWeb (ParseFormSized 4096) (FormHandler 1024 true Serve) req rnd =
    (Errored req StatusExpectationFailed
       (NewError "twister: Error reading or parsing form."), rnd)
  /\ ServeWeb ParseFormMalformed (FormHandler 1024 true Serve) req rnd =
       (Errored req StatusBadRequest
          (NewError "twister: Error reading or parsing form."), rnd).
Proof. cbv zeta. split; reflexivity. Qed.

(** * Further properties *)

(** ** Filters *)

Section FilterProperties.

Context {ResponseBody : Type}.

Implicit Types (req : Request ResponseBody).

Lemma runFilters_keeps_status (filters : list Filter) status header :
  Forall keepsStatus filters ->
  fst (runFilters filters status header) = status.
Proof.
  induction 1 as [|f filters Hf _ IH]; [reflexivity|].
  cbn [runFilters fold_right]. rewrite Hf. exact IH.
Qed.

(** X1: two filters installed one after the other act as the single
    filter that runs the second and then the first: the responder
    delivers the same for every status and header. *)
Theorem filter_fusion req (F1 F2 : Filter) status header :
  Respond (ReqResponder (FilterRespond (FilterRespond req F1) F2))
    status header =
  Respond (ReqResponder (FilterRespond req (fuse F1 F2))) status header.
Proof.
  rewrite !FilterRespond_Respond. unfold fuse.
  by destruct (F2 status header).
Qed.

(** X2: when every installed filter keeps the status, the original
    responder receives the status the handler responded with, however
    many filters there are. *)
Theorem status_kept_through_chain req (filters : list Filter) status header :
  Forall keepsStatus filters ->
  exists header',
    Respond (ReqResponder (installAll req filters)) status header =
    Respond (ReqResponder req) status header'.
Proof.
  intros Hkeep. exists (snd (runFilters filters status header)).
  rewrite installAll_Respond. by rewrite runFilters_keeps_status.
Qed.

End FilterProperties.

(** X3: the filter of the XSRF block keeps the status, appends its line
    after the [Set-Cookie] values that are already there, and leaves every
    other header as it is. *)
Theorem setCookieFilter_appends (c : string) status (header : HeaderMap.t)
  (key : string) :
  fst (setCookieFilter c status header) = status
  /\ HeaderMap.Values (snd (setCookieFilter c status header)) HeaderSetCookie
     = (HeaderMap.Values header HeaderSetCookie ++ [c])%list
  /\ (key <> HeaderSetCookie ->
      snd (setCookieFilter c status header) !! key = header !! key).
Proof.
  split; [reflexivity|]. split.
  - apply HeaderMap_Values_Add.
  - intros Hkey. cbn [setCookieFilter snd]. unfold HeaderMap.Add.
    by rewrite lookup_insert_ne.
Qed.

Lemma setCookieFilter_keepsStatus (c : string) :
  keepsStatus (setCookieFilter c).
Proof. by intros status header. Qed.

Lemma traceFilter_keepsStatus (name : string) : keepsStatus (traceFilter name).
Proof. by intros status header. Qed.

(** X2 on a chain of a cookie filter and a trace filter. *)
Lemma status_kept_cookie_and_trace :
  let filters := [setCookieFilter "xsrf=deadbeef"; traceFilter "F"] in
  Forall keepsStatus filters /\
  exists header',
    Respond (ReqResponder (installAll (exampleRequest "GET" [] []) filters))
      StatusNotFound ∅ = (StatusNotFound, header').
Proof.
  cbv zeta.
  assert (Hkeep : Forall keepsStatus
                    [setCookieFilter "xsrf=deadbeef"; traceFilter "F"]).
  { repeat constructor. }
  split; [exact Hkeep|].
  exact (status_kept_through_chain (exampleRequest "GET" [] []) _
           StatusNotFound ∅ Hkeep).
Defined.

(** ** The token *)

Lemma unhex_byte (v : byte) :
  match unhexdigit (hexdigit (N.shiftr (Byte.to_N v) 4)),
        unhexdigit (hexdigit (N.land (Byte.to_N v) 15)) with
  | Some hi, Some lo => Byte.of_N (hi * 16 + lo)
  | _, _ => None
  end = Some v.
Proof. destruct v; reflexivity. Qed.

Lemma unhex_EncodeToString (src : list byte) :
  unhex (EncodeToString src) = Some src.
Proof.
  induction src as [|v src IH]; [reflexivity|].
  cbn [EncodeToString unhex]. rewrite IH.
  pose proof (unhex_byte v) as Hv.
  destruct (unhexdigit (hexdigit (N.shiftr (Byte.to_N v) 4))) as [hi|];
    [|discriminate Hv].
  destruct (unhexdigit (hexdigit (N.land (Byte.to_N v) 15))) as [lo|];
    [|discriminate Hv].
  by rewrite Hv.
Qed.

Section TokenProperties.

Context {ResponseBody : Type}.

Implicit Types (req : Request ResponseBody) (rnd : Reader).

(** The two ways the token block yields an expected token. *)
Lemma xsrfExpectedToken_cases req rnd expected req2 rnd' :
  xsrfExpectedToken req rnd = (Ok (expected, req2), rnd') ->
  (String.length (ParamMap.Get (Cookie_ req) XSRFCookieName) = tokenLen /\
   expected = ParamMap.Get (Cookie_ req) XSRFCookieName /\
   req2 = req /\ rnd' = rnd)
  \/ (String.length (ParamMap.Get (Cookie_ req) XSRFCookieName) <> tokenLen /\
      rnd' = advance rnd /\
      exists data,
        source rnd (reads rnd) = (data, None) /\
        expected = EncodeToString (copy (make (tokenLen / 2)) data) /\
        req2 = FilterRespond req (setCookieFilter ("xsrf=" ++ expected))).
Proof.
  intros Hexpected.
  destruct (Nat.eq_dec
              (String.length (ParamMap.Get (Cookie_ req) XSRFCookieName))
              tokenLen) as [Hlen|Hlen].
  - rewrite (xsrfExpectedToken_reuse req rnd Hlen) in Hexpected.
    injection Hexpected as <- <- <-. by left.
  - rewrite (xsrfExpectedToken_mint req rnd Hlen) in Hexpected.
    destruct (source rnd (reads rnd)) as [data [e|]]; cbn [fst snd] in *;
      [discriminate Hexpected|].
    injection Hexpected as <- <- <-. right.
    split; [exact Hlen|]. split; [reflexivity|]. by exists data.
Qed.

Lemma xsrfExpectedToken_length req rnd expected req2 rnd' :
  xsrfExpectedToken req rnd = (Ok (expected, req2), rnd') ->
  String.length expected = tokenLen.
Proof.
  intros Hexpected.
  destruct (xsrfExpectedToken_cases _ _ _ _ _ Hexpected)
    as [(Hlen & -> & _)|(_ & _ & data & _ & -> & _)].
  - exact Hlen.
  - apply token_length.
Qed.

Lemma xsrfExpectedToken_fields req rnd expected req2 rnd' :
  xsrfExpectedToken req rnd = (Ok (expected, req2), rnd') ->
  Param req2 = Param req /\ Cookie_ req2 = Cookie_ req /\
  Header req2 = Header req /\ Method req2 = Method req /\
  RemoteAddr req2 = RemoteAddr req /\ URLScheme req2 = URLScheme req.
Proof.
  intros Hexpected.
  destruct (xsrfExpectedToken_cases _ _ _ _ _ Hexpected)
    as [(_ & _ & -> & _)|(_ & _ & data & _ & _ & ->)]; by repeat split.
Qed.

(** X4: whenever the token block yields an expected token, reused from the
    cookie or new, the token has exactly 8 characters; in particular it is
    never empty. *)
Theorem expected_token_has_length_8 req rnd expected req2 rnd' :
  xsrfExpectedToken req rnd = (Ok (expected, req2), rnd') ->
  String.length expected = 8%nat /\ expected <> "".
Proof.
  intros Hexpected.
  pose proof (xsrfExpectedToken_length _ _ _ _ _ Hexpected) as Hlen.
  split; [exact Hlen|]. intros ->. discriminate Hlen.
Qed.

(** X5: the token block changes nothing of the request but its responder,
    around which it puts at most one filter; the responder is changed
    exactly when the cookie does not have 8 characters. *)
Theorem token_block_changes_responder_only req rnd expected req2 rnd' :
  xsrfExpectedToken req rnd = (Ok (expected, req2), rnd') ->
  (Param req2 = Param req /\ Cookie_ req2 = Cookie_ req /\
   Header req2 = Header req /\ Method req2 = Method req /\
   RemoteAddr req2 = RemoteAddr req /\ URLScheme req2 = URLScheme req)
  /\ (depth (ReqResponder req2) <= S (depth (ReqResponder req)))%nat
  /\ (ReqResponder req2 <> ReqResponder req <->
      String.length (ParamMap.Get (Cookie_ req) XSRFCookieName) <> 8%nat).
Proof.
  intros Hexpected.
  split; [by apply (xsrfExpectedToken_fields req rnd expected req2 rnd')|].
  destruct (xsrfExpectedToken_cases _ _ _ _ _ Hexpected)
    as [(Hlen & _ & -> & _)|(Hlen & _ & data & _ & _ & ->)].
  - split; [lia|]. split; [congruence|]. intros Hne. by destruct Hne.
  - split; [reflexivity|]. split; [by intros _|].
    intros _. apply filterResponder_neq.
Qed.

(** X6: a new token is the hex encoding of the first 4 bytes the random
    source supplied, followed by zero bytes when it supplied fewer; bytes
    beyond the fourth are ignored. *)
Theorem new_token_encodes_first_four_bytes req rnd (data : list byte) :
  String.length (ParamMap.Get (Cookie_ req) XSRFCookieName) <> 8%nat ->
  source rnd (reads rnd) = (data, None) ->
  let token :=
    EncodeToString (firstn 4 data ++ replicate (4 - length data) x00) in
  xsrfExpectedToken req rnd =
    (Ok (token, FilterRespond req (setCookieFilter ("xsrf=" ++ token))),
     advance rnd).
Proof.
  intros Hlen Hsource token.
  rewrite (xsrfExpectedToken_mint req rnd Hlen), Hsource.
  cbn [fst snd]. cbv zeta. change (tokenLen / 2)%nat with 4%nat.
  by rewrite copy_make.
Qed.

End TokenProperties.

(** X7: the hex encoding of a buffer can be read back, so that two
    buffers with the same encoding are the same buffer: the token keeps
    all the bits of the random bytes. *)
Theorem hex_encoding_is_injective (a b : list byte) :
  unhex (EncodeToString a) = Some a
  /\ (EncodeToString a = EncodeToString b -> a = b).
Proof.
  split; [apply unhex_EncodeToString|].
  intros E. apply (f_equal unhex) in E.
  rewrite !unhex_EncodeToString in E. by injection E.
Qed.

(** X4 and X5 on a first visit. *)
Lemma expected_token_first_visit :
  let req := exampleRequest "GET" [] [] in
  let rnd := constReader beef None in
  let req2 := FilterRespond req (setCookieFilter "xsrf=deadbeef") in
  xsrfExpectedToken req rnd = (Ok ("deadbeef", req2), advance rnd) /\
  String.length "deadbeef" = 8%nat /\ "deadbeef" <> "".
Proof.
  cbv zeta. split; [reflexivity|].
  exact (expected_token_has_length_8 (exampleRequest "GET" [] [])
           (constReader beef None) "deadbeef" _ _ eq_refl).
Defined.

Lemma token_block_first_visit :
  let req := exampleRequest "GET" [] [] in
  let rnd := constReader beef None in
  let req2 := FilterRespond req (setCookieFilter "xsrf=deadbeef") in
  xsrfExpectedToken req rnd = (Ok ("deadbeef", req2), advance rnd) /\
  Param req2 = Param req /\ Cookie_ req2 = Cookie_ req /\
  depth (ReqResponder req2) = 1%nat.
Proof.
  cbv zeta. split; [reflexivity|].
  destruct (token_block_changes_responder_only (exampleRequest "GET" [] [])
              (constReader beef None) "deadbeef"
              (FilterRespond (exampleRequest "GET" [] [])
                 (setCookieFilter "xsrf=deadbeef"))
              (advance (constReader beef None)) eq_refl)
    as ((Hparam & Hcookie & _) & _ & _).
  split; [exact Hparam|]. split; [exact Hcookie|reflexivity].
Defined.

(** X6 on a source that supplies six bytes, and on one that supplies
    one. *)
Lemma new_token_long_and_short_read :
  let req := exampleRequest "GET" [] [] in
  let long := constReader (beef ++ [x01; x02]) None in
  let short := constReader [xde] None in
  (String.length (ParamMap.Get (Cookie_ req) XSRFCookieName) <> 8%nat /\
   source long (reads long) = ((beef ++ [x01; x02])%list, None) /\
   fst (xsrfExpectedToken req long) =
     Ok ("deadbeef", FilterRespond req (setCookieFilter "xsrf=deadbeef")))
  /\ fst (xsrfExpectedToken req short) =
       Ok ("de000000", FilterRespond req (setCookieFilter "xsrf=de000000")).
Proof.
  cbv zeta.
  assert (Hlen : String.length
                   (ParamMap.Get (Cookie_ (exampleRequest "GET" [] []))
                      XSRFCookieName) <> 8%nat) by (vm_compute; lia).
  split.
  - split; [exact Hlen|]. split; [reflexivity|].
    rewrite (new_token_encodes_first_four_bytes (exampleRequest "GET" [] [])
               (constReader (beef ++ [x01; x02]) None) _ Hlen eq_refl).
    reflexivity.
  - rewrite (new_token_encodes_first_four_bytes (exampleRequest "GET" [] [])
               (constReader [xde] None) _ Hlen eq_refl).
    reflexivity.
Defined.

(** ** The XSRF block as a whole *)

Section GuardProperties.

Context {ResponseBody : Type}.
Variable ParseForm :
  Z -> Request ResponseBody -> Request ResponseBody * option error.

Implicit Types (req : Request ResponseBody) (rnd : Reader)
  (downstream : Handler ResponseBody) (maxLen : Z).

(** Every way out of the XSRF block, once the expected token is known. *)
Lemma ServeWeb_guard_exit maxLen downstream req req1 rnd expected req2 rnd' :
  ParseForm maxLen req = (req1, None) ->
  xsrfExpectedToken req1 rnd = (Ok (expected, req2), rnd') ->
  ServeWeb ParseForm (FormHandler maxLen true downstream) req rnd =
    if negb (String.eqb expected (submittedToken req2))
       && (String.eqb (Method req2) "POST" || String.eqb (Method req2) "PUT"
           || String.eqb (Method req2) "DELETE")
    then
      (Errored (handedOn expected req2) StatusNotFound
         (NewError (if String.eqb (submittedToken req2) ""
                    then "twister: missing xsrf token"
                    else "twister: bad xsrf token")), rnd')
    else downstream (handedOn expected req2) rnd'.
Proof.
  intros Hparse Hexpected.
  rewrite (ServeWeb_guard ParseForm (FormHandler maxLen true downstream)
             req req1 rnd expected req2 rnd' eq_refl Hparse Hexpected).
  unfold handedOn.
  destruct (String.eqb expected (submittedToken req2)); [reflexivity|].
  cbn [negb andb]. cbv zeta. reflexivity.
Qed.

Lemma handedOn_Get expected req :
  ParamMap.Get (Param (handedOn expected req)) XSRFParamName = expected.
Proof.
  unfold handedOn.
  destruct (String.eqb expected (submittedToken req)) eqn:Hmatch.
  - apply String.eqb_eq in Hmatch. by apply afterFallback_Get.
  - apply ParamMap_Get_Set.
Qed.

Lemma handedOn_fields expected req :
  (forall key, key <> XSRFParamName ->
               Param (handedOn expected req) !! key = Param req !! key) /\
  Cookie_ (handedOn expected req) = Cookie_ req /\
  Header (handedOn expected req) = Header req /\
  Method (handedOn expected req) = Method req /\
  RemoteAddr (handedOn expected req) = RemoteAddr req /\
  URLScheme (handedOn expected req) = URLScheme req /\
  ReqResponder (handedOn expected req) = ReqResponder req.
Proof.
  assert (Hset : forall key, key <> XSRFParamName ->
            ParamMap.Set_ (Param req) XSRFParamName expected !! key =
            Param req !! key).
  { intros key Hkey. unfold ParamMap.Set_. by rewrite lookup_insert_ne. }
  unfold handedOn, afterFallback.
  destruct (String.eqb expected (submittedToken req));
    [destruct (String.eqb (ParamMap.Get (Param req) XSRFParamName) "")|];
    by repeat split.
Qed.

(** X8: with XSRF checking enabled, once the expected token is known the
    call ends in the downstream handler or in the not-found error path,
    and on both ways the [xsrf] parameter of the request reads the expected
    token. *)
Theorem xsrf_param_set_on_every_exit maxLen downstream req req1 rnd expected
  req2 rnd' :
  ParseForm maxLen req = (req1, None) ->
  xsrfExpectedToken req1 rnd = (Ok (expected, req2), rnd') ->
  (ServeWeb ParseForm (FormHandler maxLen true downstream) req rnd =
     downstream (handedOn expected req2) rnd'
   \/ exists err,
       ServeWeb ParseForm (FormHandler maxLen true downstream) req rnd =
         (Errored (handedOn expected req2) StatusNotFound err, rnd'))
  /\ ParamMap.Get (Param (handedOn expected req2)) XSRFParamName = expected.
Proof.
  intros Hparse Hexpected. split; [|apply handedOn_Get].
  rewrite (ServeWeb_guard_exit maxLen downstream _ _ _ _ _ _ Hparse Hexpected).
  destruct (_ && _); [right; by eexists|by left].
Qed.

(** X9: with XSRF checking enabled, the request that leaves the XSRF block
    has the parameters other than [xsrf], the cookies, the headers, the
    method, the remote address and the scheme that form parsing left. *)
Theorem xsrf_block_touches_xsrf_param_only maxLen downstream req req1 rnd
  expected req2 rnd' :
  ParseForm maxLen req = (req1, None) ->
  xsrfExpectedToken req1 rnd = (Ok (expected, req2), rnd') ->
  exists req3,
    (ServeWeb ParseForm (FormHandler maxLen true downstream) req rnd =
       downstream req3 rnd'
     \/ exists err,
         ServeWeb ParseForm (FormHandler maxLen true downstream) req rnd =
           (Errored req3 StatusNotFound err, rnd'))
    /\ (forall key, key <> XSRFParamName ->
                    Param req3 !! key = Param req1 !! key)
    /\ Cookie_ req3 = Cookie_ req1 /\ Header req3 = Header req1
    /\ Method req3 = Method req1 /\ RemoteAddr req3 = RemoteAddr req1
    /\ URLScheme req3 = URLScheme req1.
Proof.
  intros Hparse Hexpected. exists (handedOn expected req2). split.
  - rewrite (ServeWeb_guard_exit maxLen downstream _ _ _ _ _ _
               Hparse Hexpected).
    destruct (_ && _); [right; by eexists|by left].
  - destruct (handedOn_fields expected req2)
      as (Hp & Hc & Hh & Hm & Ha & Hs & _).
    destruct (xsrfExpectedToken_fields _ _ _ _ _ Hexpected)
      as (Hp' & Hc' & Hh' & Hm' & Ha' & Hs').
    rewrite Hc, Hh, Hm, Ha, Hs. repeat split; try assumption.
    intros key Hkey. rewrite (Hp key Hkey). by rewrite Hp'.
Qed.

(** X10: with XSRF checking enabled, a POST, PUT or DELETE request that
    submits no token at all (empty parameter and empty header) is always
    rejected with "missing xsrf token", whatever the cookie is: the
    expected token is never empty. *)
Theorem xsrf_no_token_always_rejected maxLen downstream req req1 rnd expected
  req2 rnd' :
  ParseForm maxLen req = (req1, None) ->
  xsrfExpectedToken req1 rnd = (Ok (expected, req2), rnd') ->
  submittedToken req2 = "" ->
  mutating (Method req2) ->
  ServeWeb ParseForm (FormHandler maxLen true downstream) req rnd =
    (Errored
       (withParam req2 (ParamMap.Set_ (Param req2) XSRFParamName expected))
       StatusNotFound (NewError "twister: missing xsrf token"), rnd').
Proof.
  intros Hparse Hexpected Hsub Hmethod.
  rewrite (ServeWeb_guard_exit maxLen downstream _ _ _ _ _ _ Hparse Hexpected).
  unfold handedOn. rewrite Hsub.
  assert (String.eqb expected "" = false) as ->.
  { apply String.eqb_neq. intros ->.
    by pose proof (xsrfExpectedToken_length _ _ _ _ _ Hexpected). }
  apply mutating_eqb in Hmethod. by rewrite Hmethod.
Qed.

(** X11: with XSRF checking enabled and the application handler
    downstream, the application is served exactly when the submitted token
    is the expected one or the method is not POST, PUT or DELETE. *)
Theorem xsrf_served_iff_match_or_safe maxLen req req1 rnd expected req2 rnd' :
  ParseForm maxLen req = (req1, None) ->
  xsrfExpectedToken req1 rnd = (Ok (expected, req2), rnd') ->
  (exists req3,
      fst (ServeWeb ParseForm (FormHandler maxLen true Serve) req rnd) =
        Served req3)
  <-> (submittedToken req2 = expected \/ ~ mutating (Method req2)).
Proof.
  intros Hparse Hexpected.
  rewrite (ServeWeb_guard_exit maxLen Serve _ _ _ _ _ _ Hparse Hexpected).
  rewrite <- (mutating_eqb (Method req2)).
  destruct (String.eqb expected (submittedToken req2)) eqn:Hmatch;
    [apply String.eqb_eq in Hmatch|apply String.eqb_neq in Hmatch];
    cbn [negb andb].
  - split; [by left|]. intros _. by eexists.
  - destruct (_ || _); cbn [fst].
    + split; [intros [req3 E]; discriminate E|].
      intros [E|E]; [congruence|by destruct E].
    + split; [by right|]. intros _. by eexists.
Qed.

(** X12: a token the handler can mint is accepted when it comes back:
    a request of any method whose cookie and submitted token are that
    token is passed to the downstream handler, and the random source is
    not read again. *)
Theorem xsrf_minted_token_is_accepted maxLen downstream (data : list byte)
  req req1 rnd :
  let token := EncodeToString (copy (make 4) data) in
  ParseForm maxLen req = (req1, None) ->
  ParamMap.Get (Cookie_ req1) XSRFCookieName = token ->
  submittedToken req1 = token ->
  ServeWeb ParseForm (FormHandler maxLen true downstream) req rnd =
    downstream (afterFallback token req1) rnd
  /\ ReqResponder (afterFallback token req1) = ReqResponder req1.
Proof.
  intros token Hparse Hcookie Hsub.
  split; [|apply afterFallback_fields].
  assert (Hlen : String.length (ParamMap.Get (Cookie_ req1) XSRFCookieName) =
                 tokenLen) by (rewrite Hcookie; apply token_length).
  rewrite (ServeWeb_guard_exit maxLen downstream _ _ _ _ _ _ Hparse
             (xsrfExpectedToken_reuse req1 rnd Hlen)).
  unfold handedOn. by rewrite Hcookie, Hsub, String.eqb_refl.
Qed.

(** X13: the form handler reads the random source at most once, and only
    with XSRF checking enabled, after a successful form parse, for a
    cookie that does not have 8 characters. *)
Theorem form_handler_reads_source_at_most_once maxLen (check : bool) req rnd :
  let out := ServeWeb ParseForm (FormHandler maxLen check Serve) req rnd in
  snd out = rnd
  \/ (snd out = advance rnd /\ check = true /\
      exists req1,
        ParseForm maxLen req = (req1, None) /\
        String.length (ParamMap.Get (Cookie_ req1) XSRFCookieName) <> 8%nat).
Proof.
  intros out. subst out.
  destruct (ParseForm maxLen req) as [req1 [err|]] eqn:Hparse.
  { left.
    by rewrite (ServeWeb_parse_error ParseForm
                  (FormHandler maxLen check Serve) req req1 err rnd Hparse). }
  destruct check.
  2:{ left. unfold ServeWeb. cbn [maxRequestBodyLen checkXSRF FormHandler].
      by rewrite Hparse. }
  destruct (xsrfExpectedToken req1 rnd) as [[[expected req2]|msg] rnd']
    eqn:Hexpected.
  - rewrite (ServeWeb_guard_exit maxLen Serve _ _ _ _ _ _ Hparse Hexpected).
    assert (Hsnd : forall (b : bool) (o : Outcome ResponseBody) req3,
               snd (if b then (o, rnd') else Serve req3 rnd') = rnd')
      by (by intros []).
    rewrite Hsnd.
    destruct (xsrfExpectedToken_cases _ _ _ _ _ Hexpected)
      as [(_ & _ & _ & ->)|(Hlen & -> & _)]; [by left|].
    right. split; [reflexivity|]. split; [reflexivity|]. by exists req1.
  - destruct (Nat.eq_dec
                (String.length (ParamMap.Get (Cookie_ req1) XSRFCookieName))
                tokenLen) as [Hlen|Hlen].
    { rewrite (xsrfExpectedToken_reuse req1 rnd Hlen) in Hexpected.
      discriminate Hexpected. }
    pose proof (xsrfExpectedToken_mint req1 rnd Hlen) as Hmint.
    rewrite Hexpected in Hmint. injection Hmint as _ ->.
    right. split.
    + unfold ServeWeb. cbn [maxRequestBodyLen checkXSRF FormHandler].
      by rewrite Hparse, Hexpected.
    + split; [reflexivity|]. by exists req1.
Qed.

End GuardProperties.

(** ** The proxy header handler *)

Section ProxyProperties.

Context {ResponseBody : Type}.

Implicit Types (req : Request ResponseBody) (rnd : Reader)
  (h : Handler ResponseBody) (addrName schemeName : string).

(** The request the proxy header handler passes on. *)
Lemma Proxy_ServeWeb_request addrName schemeName h req rnd :
  Proxy.ServeWeb (Proxy.ProxyHeaderHandler addrName schemeName h) req rnd =
    h {| RemoteAddr :=
           if String.eqb (HeaderMap.Get (Header req) addrName) ""
           then RemoteAddr req else HeaderMap.Get (Header req) addrName;
         URLScheme :=
           if String.eqb (HeaderMap.Get (Header req) schemeName) ""
           then URLScheme req else HeaderMap.Get (Header req) schemeName;
         Method := Method req; Header := Header req; Cookie_ := Cookie_ req;
         Param := Param req; ReqResponder := ReqResponder req |} rnd.
Proof.
  unfold Proxy.ServeWeb. cbn [Proxy.addrName Proxy.schemeName Proxy.h
                              Proxy.ProxyHeaderHandler].
  destruct req as [addr scheme method header cookie param responder].
  cbn [Header].
  destruct (String.eqb (HeaderMap.Get header addrName) "");
    cbn [negb Header withRemoteAddr];
    by destruct (String.eqb (HeaderMap.Get header schemeName) "").
Qed.

(** X14: when the request has no value for either configured header (as
    for a header name that is empty, on a header map that holds nothing
    under the empty name), the proxy header handler passes the request to
    the downstream handler unchanged. *)
Theorem proxy_without_headers_is_transparent addrName schemeName h req rnd :
  HeaderMap.Get (Header req) addrName = "" ->
  HeaderMap.Get (Header req) schemeName = "" ->
  Proxy.ServeWeb (Proxy.ProxyHeaderHandler addrName schemeName h) req rnd =
    h req rnd.
Proof.
  intros Haddr Hscheme. rewrite Proxy_ServeWeb_request, Haddr, Hscheme.
  by destruct req.
Qed.

(** X15: the proxy header handler always passes the request on to the
    downstream handler, with the random source as it is; the remote
    address and the scheme are the first values of the configured headers
    where these are not empty, and the headers, cookies, parameters,
    method and responder are never changed. *)
Theorem proxy_overrides_addr_and_scheme_only addrName schemeName h req rnd :
  exists req',
    Proxy.ServeWeb (Proxy.ProxyHeaderHandler addrName schemeName h) req rnd =
      h req' rnd
    /\ (HeaderMap.Get (Header req) addrName <> "" ->
        RemoteAddr req' = HeaderMap.Get (Header req) addrName)
    /\ (HeaderMap.Get (Header req) addrName = "" ->
        RemoteAddr req' = RemoteAddr req)
    /\ (HeaderMap.Get (Header req) schemeName <> "" ->
        URLScheme req' = HeaderMap.Get (Header req) schemeName)
    /\ (HeaderMap.Get (Header req) schemeName = "" ->
        URLScheme req' = URLScheme req)
    /\ Header req' = Header req /\ Cookie_ req' = Cookie_ req
    /\ Param req' = Param req /\ Method req' = Method req
    /\ ReqResponder req' = ReqResponder req.
Proof.
  eexists. split; [apply Proxy_ServeWeb_request|]. cbn.
  repeat split; intros Hget.
  - apply String.eqb_neq in Hget. by rewrite Hget.
  - by rewrite Hget.
  - apply String.eqb_neq in Hget. by rewrite Hget.
  - by rewrite Hget.
Qed.

(** X16: wrapping a handler twice in the same proxy header handler does
    what wrapping it once does. *)
Theorem proxy_twice_is_once addrName schemeName h req rnd :
  Proxy.ServeWeb
    (Proxy.ProxyHeaderHandler addrName schemeName
       (Proxy.ServeWeb (Proxy.ProxyHeaderHandler addrName schemeName h)))
    req rnd =
  Proxy.ServeWeb (Proxy.ProxyHeaderHandler addrName schemeName h) req rnd.
Proof.
  rewrite !Proxy_ServeWeb_request. cbn.
  destruct (String.eqb (HeaderMap.Get (Header req) addrName) "");
    by destruct (String.eqb (HeaderMap.Get (Header req) schemeName) "").
Qed.

(** X17: on a header map that holds nothing under the empty name, a
    handler for the address header alone around a handler for the scheme
    header alone does what the handler for both does: the two fix-ups do
    not depend on each other. *)
Theorem proxy_fixups_are_independent addrName schemeName h req rnd :
  HeaderMap.Get (Header req) "" = "" ->
  Proxy.ServeWeb
    (Proxy.ProxyHeaderHandler addrName ""
       (Proxy.ServeWeb (Proxy.ProxyHeaderHandler "" schemeName h)))
    req rnd =
  Proxy.ServeWeb (Proxy.ProxyHeaderHandler addrName schemeName h) req rnd.
Proof.
  intros Hempty. rewrite !Proxy_ServeWeb_request. cbn.
  by rewrite Hempty.
Qed.

End ProxyProperties.

(** ** The further properties on concrete requests *)

(** X8 on the rejected POST request with parameter [wrongtok]: the request
    given to the error path carries the expected token. *)
Lemma xsrf_param_set_on_rejection :
  let req := exampleRequest "POST" ["abcd1234"] ["wrongtok"] in
  let rnd := constReader beef None in
  ParseFormSized 0 1024 req = (req, None) /\
  xsrfExpectedToken req rnd = (Ok ("abcd1234", req), rnd) /\
  ParamMap.Get (Param (handedOn "abcd1234" req)) XSRFParamName = "abcd1234".
Proof.
  cbv zeta. split; [reflexivity|]. split; [reflexivity|].
  exact (proj2 (xsrf_param_set_on_every_exit (ParseFormSized 0) 1024 Serve
                  (exampleRequest "POST" ["abcd1234"] ["wrongtok"])
                  (exampleRequest "POST" ["abcd1234"] ["wrongtok"])
                  (constReader beef None) "abcd1234"
                  (exampleRequest "POST" ["abcd1234"] ["wrongtok"])
                  (constReader beef None) eq_refl eq_refl)).
Defined.

(** X9 on a first visit: the served request has the cookies and headers
    of the incoming one. *)
Lemma xsrf_block_first_visit_frame :
  let req := exampleRequest "GET" [] [] in
  let rnd := constReader beef None in
  let req2 := FilterRespond req (setCookieFilter "xsrf=deadbeef") in
  ParseFormSized 0 1024 req = (req, None) /\
  xsrfExpectedToken req rnd = (Ok ("deadbeef", req2), advance rnd) /\
  exists req3,
    (ServeWeb (ParseFormSized 0) (FormHandler 1024 true Serve) req rnd =
       Serve req3 (advance rnd)
     \/ exists err,
         ServeWeb (ParseFormSized 0) (FormHandler 1024 true Serve) req rnd =
           (Errored req3 StatusNotFound err, advance rnd))
    /\ Cookie_ req3 = Cookie_ req /\ Header req3 = Header req.
Proof.
  cbv zeta. split; [reflexivity|]. split; [reflexivity|].
  destruct (xsrf_block_touches_xsrf_param_only (ParseFormSized 0) 1024 Serve
              (exampleRequest "GET" [] []) (exampleRequest "GET" [] [])
              (constReader beef None) "deadbeef"
              (FilterRespond (exampleRequest "GET" [] [])
                 (setCookieFilter "xsrf=deadbeef"))
              (advance (constReader beef None)) eq_refl eq_refl)
    as (req3 & Hexit & _ & Hcookie & Hheader & _).
  exists req3. split; [exact Hexit|]. split; [exact Hcookie|exact Hheader].
Defined.

(** X10 on a DELETE request without cookie, parameter and header: a token
    is minted and the request is rejected. *)
Lemma xsrf_no_token_delete_rejected :
  let req := exampleRequest "DELETE" [] [] in
  let rnd := constReader beef None in
  let req2 := FilterRespond req (setCookieFilter "xsrf=deadbeef") in
  ParseFormSized 0 1024 req = (req, None) /\
  xsrfExpectedToken req rnd = (Ok ("deadbeef", req2), advance rnd) /\
  submittedToken req2 = "" /\
  mutating (Method req2) /\
  ServeWeb (ParseFormSized 0) (FormHandler 1024 true Serve) req rnd =
    (Errored
       (withParam req2 (ParamMap.Set_ (Param req2) XSRFParamName "deadbeef"))
       StatusNotFound (NewError "twister: missing xsrf token"), advance rnd).
Proof.
  cbv zeta.
  assert (Hmethod : mutating
                      (Method (FilterRespond (exampleRequest "DELETE" [] [])
                                 (setCookieFilter "xsrf=deadbeef"))))
    by (right; by right).
  split; [reflexivity|]. split; [reflexivity|]. split; [reflexivity|].
  split; [exact Hmethod|].
  exact (xsrf_no_token_always_rejected (ParseFormSized 0) 1024 Serve
           (exampleRequest "DELETE" [] []) (exampleRequest "DELETE" [] [])
           (constReader beef None) "deadbeef"
           (FilterRespond (exampleRequest "DELETE" [] [])
              (setCookieFilter "xsrf=deadbeef"))
           (advance (constReader beef None)) eq_refl eq_refl eq_refl Hmethod).
Defined.

(** X11 on a PUT request with a wrong token: the application is not
    served. *)
Lemma xsrf_put_wrong_token_not_served :
  let req := exampleRequest "PUT" ["abcd1234"] ["wrongtok"] in
  let rnd := constReader beef None in
  ParseFormSized 0 1024 req = (req, None) /\
  xsrfExpectedToken req rnd = (Ok ("abcd1234", req), rnd) /\
  ~ (submittedToken req = "abcd1234" \/ ~ mutating (Method req)) /\
  ~ exists req3,
      fst (ServeWeb (ParseFormSized 0) (FormHandler 1024 true Serve) req rnd) =
        Served req3.
Proof.
  cbv zeta.
  set (req := exampleRequest "PUT" ["abcd1234"] ["wrongtok"]).
  assert (Hnot : ~ (submittedToken req = "abcd1234"
                    \/ ~ mutating (Method req))).
  { intros [E|E]; [vm_compute in E; congruence|].
    apply E. right. by left. }
  split; [reflexivity|]. split; [reflexivity|]. split; [exact Hnot|].
  intros Hserved. apply Hnot.
  exact (proj1 (xsrf_served_iff_match_or_safe (ParseFormSized 0) 1024
                  req req (constReader beef None) "abcd1234" req
                  (constReader beef None) eq_refl eq_refl) Hserved).
Defined.

(** X12 on the token [deadbeef] coming back in a POST request. *)
Lemma xsrf_minted_token_comes_back :
  let req := exampleRequest "POST" ["deadbeef"] ["deadbeef"] in
  let rnd := constReader [] (Some (NewError "rand: source unavailable")) in
  ParseFormSized 0 1024 req = (req, None) /\
  ParamMap.Get (Cookie_ req) XSRFCookieName =
    EncodeToString (copy (make 4) beef) /\
  submittedToken req = EncodeToString (copy (make 4) beef) /\
  ServeWeb (ParseFormSized 0) (FormHandler 1024 true Serve) req rnd =
    (Served req, rnd).
Proof.
  cbv zeta. split; [reflexivity|]. split; [reflexivity|].
  split; [reflexivity|].
  exact (proj1 (xsrf_minted_token_is_accepted (ParseFormSized 0) 1024 Serve
                  beef (exampleRequest "POST" ["deadbeef"] ["deadbeef"])
                  (exampleRequest "POST" ["deadbeef"] ["deadbeef"])
                  (constReader [] (Some (NewError "rand: source unavailable")))
                  eq_refl eq_refl eq_refl)).
Defined.

(** X14 on a request without proxy headers. *)
Lemma proxy_direct_request_unchanged :
  let req := exampleRequest "GET" [] [] in
  let rnd := constReader beef None in
  HeaderMap.Get (Header req) "X-Real-Ip" = "" /\
  HeaderMap.Get (Header req) "X-Scheme" = "" /\
  Proxy.ServeWeb (Proxy.ProxyHeaderHandler "X-Real-Ip" "X-Scheme" Serve)
    req rnd = (Served req, rnd).
Proof.
  cbv zeta. split; [reflexivity|]. split; [reflexivity|].
  exact (proxy_without_headers_is_transparent "X-Real-Ip" "X-Scheme" Serve
           (exampleRequest "GET" [] []) (constReader beef None)
           eq_refl eq_refl).
Defined.

(** X17 on a request that came through the proxy. *)
Lemma proxy_split_handlers_on_proxied_request :
  let rnd := constReader beef None in
  HeaderMap.Get (Header proxiedRequest) "" = "" /\
  Proxy.ServeWeb
    (Proxy.ProxyHeaderHandler "X-Real-Ip" ""
       (Proxy.ServeWeb (Proxy.ProxyHeaderHandler "" "X-Scheme" Serve)))
    proxiedRequest rnd =
  Proxy.ServeWeb (Proxy.ProxyHeaderHandler "X-Real-Ip" "X-Scheme" Serve)
    proxiedRequest rnd.
Proof.
  cbv zeta.
  assert (Hempty : HeaderMap.Get (Header proxiedRequest) "" = "")
    by reflexivity.
  split; [exact Hempty|].
  exact (proxy_fixups_are_independent "X-Real-Ip" "X-Scheme" Serve
           proxiedRequest (constReader beef None) Hempty).
Defined.

(** The fix-ups on a proxied request, and the call of the example in the
    documentation of [ProxyHeaderHandler], which passes the scheme header
    as [addrName] and the address header as [schemeName]. *)
Example proxy_on_proxied_request :
  let rnd := constReader beef None in
  fst (Proxy.ServeWeb (Proxy.ProxyHeaderHandler "X-Real-Ip" "X-Scheme" Serve)
         proxiedRequest rnd) =
    Served (withURLScheme (withRemoteAddr proxiedRequest "203.0.113.9")
              "https")
  /\ fst (Proxy.ServeWeb
            (Proxy.ProxyHeaderHandler "X-Scheme" "X-Real-Ip" Serve)
            proxiedRequest rnd) =
       Served (withURLScheme (withRemoteAddr proxiedRequest "https")
                 "203.0.113.9").
Proof. cbv zeta. split; reflexivity. Qed.
